(** * byenatOS personalization middleware: a shallow embedding

    The development embeds the parts of the Python sources that the
    specification's testable properties talk about:

    - [Kernel/Core/HiNATAProcessor.py]   (validator, ingestion pipeline),
    - [Kernel/Core/StorageEngine.py]     (tiered store, retrieval, ranking),
    - [Kernel/Core/PSPEngine.py]         (intent/profile matcher),
    - [Security/WritePermissionManager.py] (risk assessment, authorization),
    - [InterfaceAbstraction/APIs/HiNATAWriteAPI.py] (governed write path).

    Conventions.
    - Python [dict]s with string keys are [gmap string value]; SQL tables
      are finite maps from the primary key to a row record; the Redis
      key space is a finite map from the (concatenated) key string.
    - Python [float]s are embedded as exact rationals [Q]; equalities
      between scores are therefore stated with [==].  The one exception
      is the risk score of [RiskAssessment]: its thresholds are met
      exactly by sums of decimal literals, so it is a binary64 [float].
    - Wall-clock readings ([time.time()], [datetime.now(timezone.utc)])
      are explicit arguments, in seconds since the epoch.  A parsed
      [datetime] is a record of its instant and its UTC offset (absent
      for an offset-naive value).  [datetime.fromisoformat],
      [isoformat], [str(datetime)], [hashlib.md5] and the Unicode-aware
      [str.lower] / [str.strip] belong to the Python runtime and are
      the methods of the class [Runtime].
    - The relational store is reached through asyncpg, which checks
      query arguments against the column types on the client: a [str]
      offered for a TIMESTAMP WITH TIME ZONE or BIGINT parameter raises
      [DataError] and the statement is not sent; a TIMESTAMP WITH TIME
      ZONE column is read back as an offset-aware [datetime].
    - Exceptions are values of [exn]; a computation that may raise
      returns an [outcome]. *)

From Stdlib Require Import ZArith QArith Qpower Qround Qminmax Lqa Lia Ascii String.
From Stdlib Require Import Floats Sorted.
From stdpp Require Import base option list gmap strings fin_maps pretty.

#[local] Open Scope Z_scope.

(** ** Python runtime prelude *)

Module Py.

(** Exceptions that the embedded code can raise or catch. *)
Inductive exn : Type :=
| KeyError (key : string)
| TypeError (msg : string)
| ValueError (msg : string)
| AttributeError (msg : string)
| HTTPException (status_code : Z) (detail : string)
| DatabaseError (msg : string)
| DataError (msg : string)
| RuntimeError (msg : string).

Inductive outcome (A : Type) : Type :=
| Ok (a : A)
| Raise (e : exn).
Arguments Ok {A} a.
Arguments Raise {A} e.

#[global] Instance outcome_ret : MRet outcome := fun _ a => Ok a.
#[global] Instance outcome_bind : MBind outcome := fun _ _ k c =>
  match c with
  | Ok a => k a
  | Raise e => Raise e
  end.

Definition is_ok {A} (c : outcome A) : bool :=
  match c with Ok _ => true | Raise _ => false end.

(** The value of a computation that returned ([a0] if it raised). *)
Definition ok_or {A} (a0 : A) (c : outcome A) : A :=
  match c with Ok a => a | Raise _ => a0 end.

(** [str(e)], as used for error messages. *)
Definition str_of_exn (e : exn) : string :=
  match e with
  | KeyError k => "'" +:+ k +:+ "'"
  | TypeError m | ValueError m | AttributeError m
  | DatabaseError m | DataError m | RuntimeError m => m
  | HTTPException _ d => d
  end.

(** JSON-like dynamic values carried by records and request payloads. *)
#[local] Set Warnings "-register-all".
Inductive value : Type :=
| VNone
| VBool (b : bool)
| VNum (q : Q)
| VStr (s : string)
| VStrs (l : list string)
| VNums (l : list Q)
| VDict (m : gmap string value)
| VDatetime (t : Z).     (* an offset-aware [datetime], by its instant *)
#[local] Set Warnings "register-all".

(** Python truthiness. *)
Definition truthy (v : value) : bool :=
  match v with
  | VNone => false
  | VBool b => b
  | VNum q => negb (Qeq_bool q 0)
  | VStr s => negb (String.eqb s "")
  | VStrs l => match l with [] => false | _ => true end
  | VNums l => match l with [] => false | _ => true end
  | VDict m => match map_to_list m with [] => false | _ => true end
  | VDatetime _ => true
  end.

(** [d[k]] *)
Definition getitem (d : gmap string value) (k : string) : outcome value :=
  match d !! k with
  | Some v => Ok v
  | None => Raise (KeyError k)
  end.

(** [d.get(k, default)] *)
Definition get (d : gmap string value) (k : string) (default : value) : value :=
  match d !! k with
  | Some v => v
  | None => default
  end.

(** Arithmetic on a dynamic value: anything that is not a number raises. *)
Definition as_num (v : value) : outcome Q :=
  match v with
  | VNum q => Ok q
  | VBool b => Ok (if b then 1%Q else 0%Q)
  | _ => Raise (TypeError "unsupported operand type(s)")
  end.

Definition as_str (v : value) : outcome string :=
  match v with
  | VStr s => Ok s
  | _ => Raise (TypeError "expected str")
  end.

Definition as_strs (v : value) : outcome (list string) :=
  match v with
  | VStrs l => Ok l
  | _ => Raise (TypeError "expected a list of str")
  end.

(** The receiver of [v.replace('Z', ...)]: a [str] has the method; a
    [datetime] has a [replace] that takes no such arguments; the other
    values have none. *)
Definition replace_receiver (v : value) : outcome string :=
  match v with
  | VStr s => Ok s
  | VDatetime _ => Raise (TypeError "'str' object cannot be interpreted as an integer")
  | _ => Raise (AttributeError "object has no attribute 'replace'")
  end.

(** [json.dumps(v)] without a [default]: a [datetime] anywhere in [v]
    raises [TypeError]; the result stands for the JSON text of [v]. *)
Fixpoint has_datetime (v : value) : bool :=
  match v with
  | VDatetime _ => true
  | VDict m => map_fold (fun _ v' acc => has_datetime v' || acc) false m
  | _ => false
  end.

Definition json_dumps (v : value) : outcome value :=
  if has_datetime v
  then Raise (TypeError "Object of type datetime is not JSON serializable")
  else Ok v.

(** *** [str] methods

    [replace] and slicing act on characters.  [ascii_strip] and
    [ascii_lower] are [str.strip] and [str.lower] restricted to ASCII
    text; the methods themselves are Unicode-aware and belong to the
    runtime (class [Runtime] below). *)

(** [str.isspace] on the ASCII range. *)
Definition is_space (c : ascii) : bool :=
  let n := nat_of_ascii c in
  (((9 <=? n) && (n <=? 13)) || ((28 <=? n) && (n <=? 32)))%nat.

Fixpoint lstrip (s : string) : string :=
  match s with
  | EmptyString => EmptyString
  | String c s' => if is_space c then lstrip s' else s
  end.

Definition rstrip (s : string) : string :=
  String.rev (lstrip (String.rev s)).

Definition ascii_strip (s : string) : string := rstrip (lstrip s).

Definition lower_char (c : ascii) : ascii :=
  let n := nat_of_ascii c in
  if ((65 <=? n) && (n <=? 90))%nat then ascii_of_nat (n + 32) else c.

Fixpoint ascii_lower (s : string) : string :=
  match s with
  | EmptyString => EmptyString
  | String c s' => String (lower_char c) (ascii_lower s')
  end.

(** [s.replace(c, by)] for a one-character pattern. *)
Fixpoint replace (c : ascii) (by_ : string) (s : string) : string :=
  match s with
  | EmptyString => EmptyString
  | String a s' =>
      if Ascii.eqb a c then by_ +:+ replace c by_ s'
      else String a (replace c by_ s')
  end.

(** [s[:n]] *)
Fixpoint prefix (n : nat) (s : string) : string :=
  match n, s with
  | S n', String a s' => String a (prefix n' s')
  | _, _ => EmptyString
  end.

(** [list(set(l))]: the elements of [l] without repetition.  The
    iteration order of a Python [set] is unspecified; first occurrences
    are kept here. *)
Fixpoint list_of_set (l : list string) : list string :=
  match l with
  | [] => []
  | x :: l' => x :: filter (fun y => y ≠ x) (list_of_set l')
  end.

End Py.
Export Py.

(** ** Effects: state threading with exceptions

    Every [await] on Redis, PostgreSQL or the file system is a step of
    [io S]: it receives the current backend state and returns either a
    value or a raised exception together with the (possibly already
    modified) state.  Effects performed before an exception is raised
    are therefore kept, as in the Python code, which uses no
    transactions. *)

Module Eff.

Definition io (S A : Type) : Type := S → outcome A * S.

#[global] Instance io_ret {S} : MRet (io S) := fun _ a s => (Ok a, s).
#[global] Instance io_bind {S} : MBind (io S) := fun _ _ k c s =>
  match c s with
  | (Ok a, s') => k a s'
  | (Raise e, s') => (Raise e, s')
  end.

Definition raise {S A} (e : exn) : io S A := fun s => (Raise e, s).
Definition get_state {S} : io S S := fun s => (Ok s, s).
Definition modify {S} (f : S → S) : io S unit := fun s => (Ok tt, f s).
Definition lift {S A} (c : outcome A) : io S A := fun s => (c, s).

(** [try: c  except Exception as e: h e] *)
Definition try_except {S A} (c : io S A) (h : exn → io S A) : io S A :=
  fun s =>
    match c s with
    | (Ok a, s') => (Ok a, s')
    | (Raise e, s') => h e s'
    end.

(** [for x in l: body x] *)
Fixpoint for_each {S A} (l : list A) (body : A → io S unit) : io S unit :=
  match l with
  | [] => mret tt
  | x :: l' => _ ← body x; for_each l' body
  end.

End Eff.
Export Eff.

(** ** Python runtime and external services *)

(** A [datetime]: [posix] is its [.timestamp()] in seconds, [utcoffset]
    its offset from UTC in seconds, absent for an offset-naive value
    (whose [.timestamp()] reads it as local time). *)
Record datetime : Type := {
  posix : Z;
  utcoffset : option Z
}.

(** [datetime.now(timezone.utc)] at instant [t]; also the value that
    asyncpg returns for a TIMESTAMP WITH TIME ZONE column. *)
Definition utc (t : Z) : datetime := {| posix := t; utcoffset := Some 0 |}.

(** [datetime] parsing and printing, [hashlib.md5] and the Unicode-aware
    [str] methods.  [fromisoformat s] is [None] when Python raises
    [ValueError]. *)
Class Runtime : Type := {
  fromisoformat : string → option datetime;
  isoformat : datetime → string;
  str_of_datetime : datetime → string;       (* str(dt) *)
  md5 : string → string;
  lower : string → string;                   (* str.lower *)
  strip : string → string                    (* str.strip *)
}.

(** [(t1 - t0).days]: [timedelta.days] rounds towards minus infinity. *)
Definition days_between (t1 t0 : Z) : Z := (t1 - t0) / 86400.

(** [(datetime.now(timezone.utc) - dt).days]: subtracting an
    offset-naive value from an offset-aware one raises. *)
Definition days_since (now : Z) (dt : datetime) : outcome Z :=
  match utcoffset dt with
  | Some _ => Ok (days_between now (posix dt))
  | None => Raise (TypeError "can't subtract offset-naive and offset-aware datetimes")
  end.

(** [datetime.now(timezone.utc) < dt] and [... > dt] *)
Definition now_before (now : Z) (dt : datetime) : outcome bool :=
  match utcoffset dt with
  | Some _ => Ok (bool_decide (now < posix dt))
  | None => Raise (TypeError "can't compare offset-naive and offset-aware datetimes")
  end.

Definition now_after (now : Z) (dt : datetime) : outcome bool :=
  match utcoffset dt with
  | Some _ => Ok (bool_decide (now > posix dt))
  | None => Raise (TypeError "can't compare offset-naive and offset-aware datetimes")
  end.

(** [datetime.fromisoformat(s.replace('Z', '+00:00'))] *)
Definition parse_utc {RT : Runtime} (s : string) : outcome datetime :=
  match fromisoformat (replace "Z" "+00:00" s) with
  | Some dt => Ok dt
  | None => Raise (ValueError "Invalid isoformat string")
  end.

(** ** Persistent state shared by the components *)

Module Backend.

(** Row of the relational table [hinata_data] (with the two columns
    added by the write API).  The TIMESTAMP WITH TIME ZONE columns
    [timestamp] and [deleted_at] hold instants.  JSONB columns hold the
    value that was serialised into them. *)
Record data_row : Type := {
  row_id : string;
  row_user_id : string;
  row_timestamp : Z;
  row_source : string;
  row_highlight : string;
  row_note : string;
  row_address : string;
  row_tags : value;
  row_access_level : string;
  row_enhanced_tags : value;
  row_recommended_highlights : value;
  row_semantic_analysis : value;
  row_quality_score : option Q;
  row_attention_weight : option Q;
  row_psp_influence_weight : option Q;
  row_embedding_vector : value;
  row_processing_metadata : value;
  row_storage_tier : string;
  row_is_deleted : bool;
  row_deleted_at : option Z
}.

(** Row of the table [hinata_index]; its [timestamp] column is a
    BIGINT. *)
Record index_row : Type := {
  ix_hinata_id : string;
  ix_user_id : string;
  ix_timestamp : Z;
  ix_source : string;
  ix_psp_influence_weight : Q;
  ix_attention_weight : Q;
  ix_quality_score : Q;
  ix_storage_tier : string;
  ix_tags : list string;
  ix_content_hash : string
}.

(** Payload of a Redis string key. *)
Inductive redis_string : Type :=
| Gzip (d : gmap string value)      (* gzip.compress(json.dumps(d).encode()) *)
| Json (d : gmap string value)      (* json.dumps(d) *)
| Backup (user operation backup_time : string) (rows : list data_row)
| Raw (s : string).

Record Store : Type := {
  (* Redis: string keys with their expiry instant, sorted sets, sets *)
  redis_strings : gmap string (redis_string * Z);
  redis_zsets : gmap string (gmap string Q);
  redis_sets : gmap string (gset string);
  (* PostgreSQL *)
  hinata_data : gmap string data_row;
  hinata_index : gmap string index_row;
  user_permissions : gmap string (list string);
  (* cold tier: data/{user}/{date}.gz and index/{user}/{date}.idx *)
  cold_data : gmap (string * string) (list (gmap string value));
  cold_index : gmap (string * string) (list string)
}.

Definition empty_store : Store :=
  {| redis_strings := ∅; redis_zsets := ∅; redis_sets := ∅;
     hinata_data := ∅; hinata_index := ∅; user_permissions := ∅;
     cold_data := ∅; cold_index := ∅ |}.

Definition with_redis_strings (f : gmap string (redis_string * Z) → gmap string (redis_string * Z))
    (s : Store) : Store :=
  {| redis_strings := f (redis_strings s); redis_zsets := redis_zsets s;
     redis_sets := redis_sets s; hinata_data := hinata_data s;
     hinata_index := hinata_index s; user_permissions := user_permissions s;
     cold_data := cold_data s; cold_index := cold_index s |}.

Definition with_redis_zsets (f : gmap string (gmap string Q) → gmap string (gmap string Q))
    (s : Store) : Store :=
  {| redis_strings := redis_strings s; redis_zsets := f (redis_zsets s);
     redis_sets := redis_sets s; hinata_data := hinata_data s;
     hinata_index := hinata_index s; user_permissions := user_permissions s;
     cold_data := cold_data s; cold_index := cold_index s |}.

Definition with_redis_sets (f : gmap string (gset string) → gmap string (gset string))
    (s : Store) : Store :=
  {| redis_strings := redis_strings s; redis_zsets := redis_zsets s;
     redis_sets := f (redis_sets s); hinata_data := hinata_data s;
     hinata_index := hinata_index s; user_permissions := user_permissions s;
     cold_data := cold_data s; cold_index := cold_index s |}.

Definition with_hinata_data (f : gmap string data_row → gmap string data_row)
    (s : Store) : Store :=
  {| redis_strings := redis_strings s; redis_zsets := redis_zsets s;
     redis_sets := redis_sets s; hinata_data := f (hinata_data s);
     hinata_index := hinata_index s; user_permissions := user_permissions s;
     cold_data := cold_data s; cold_index := cold_index s |}.

Definition with_hinata_index (f : gmap string index_row → gmap string index_row)
    (s : Store) : Store :=
  {| redis_strings := redis_strings s; redis_zsets := redis_zsets s;
     redis_sets := redis_sets s; hinata_data := hinata_data s;
     hinata_index := f (hinata_index s); user_permissions := user_permissions s;
     cold_data := cold_data s; cold_index := cold_index s |}.

Definition with_cold (f : gmap (string * string) (list (gmap string value)) →
                         gmap (string * string) (list (gmap string value)))
    (g : gmap (string * string) (list string) → gmap (string * string) (list string))
    (s : Store) : Store :=
  {| redis_strings := redis_strings s; redis_zsets := redis_zsets s;
     redis_sets := redis_sets s; hinata_data := hinata_data s;
     hinata_index := hinata_index s; user_permissions := user_permissions s;
     cold_data := f (cold_data s); cold_index := g (cold_index s) |}.

(** *** Redis commands *)

(** [SETEX key ttl v] issued at instant [now]. *)
Definition setex (now : Z) (key : string) (ttl : Z) (v : redis_string) : io Store unit :=
  modify (with_redis_strings (insert key (v, now + ttl))).

(** [GET key]: expired keys are gone. *)
Definition redis_get (now : Z) (key : string) : io Store (option redis_string) :=
  s ← get_state;
  mret (match redis_strings s !! key with
        | Some (v, expires) => if bool_decide (now < expires) then Some v else None
        | None => None
        end).

(** [ZADD key {member: score}] *)
Definition zadd (key member : string) (score : Q) : io Store unit :=
  modify (with_redis_zsets (fun z =>
    <[key := <[member := score]> (default ∅ (z !! key))]> z)).

(** [SADD key member] *)
Definition sadd (key member : string) : io Store unit :=
  modify (with_redis_sets (fun z =>
    <[key := {[member]} ∪ default ∅ (z !! key)]> z)).

(** [ZRANGEBYSCORE key min max] (members only; callers collect them
    into a set). *)
Definition zrangebyscore (key : string) (lo hi : Q) : io Store (list string) :=
  s ← get_state;
  mret (fst <$> filter (fun p => Qle_bool lo (snd p) && Qle_bool (snd p) hi = true)
                  (map_to_list (default ∅ (redis_zsets s !! key)))).

(** *** Query arguments

    asyncpg encodes each argument for the type of its parameter before
    the statement is sent. *)

(** An argument for a TIMESTAMP WITH TIME ZONE parameter. *)
Definition timestamptz_arg (v : value) : outcome Z :=
  match v with
  | VDatetime t => Ok t
  | _ => Raise (DataError ("invalid input for query argument: " +:+
                           "expected a datetime.date or datetime.datetime instance"))
  end.

(** An argument for a TEXT parameter. *)
Definition text_arg (v : value) : outcome string :=
  match v with
  | VStr s => Ok s
  | _ => Raise (DataError "invalid input for query argument: expected str")
  end.

(** An argument for a REAL parameter; [None] is NULL. *)
Definition real_arg (v : value) : outcome (option Q) :=
  match v with
  | VNone => Ok None
  | VNum q => Ok (Some q)
  | VBool b => Ok (Some (if b then 1%Q else 0%Q))
  | _ => Raise (DataError "invalid input for query argument: a float is required")
  end.

(** An argument for a BIGINT parameter. *)
Definition bigint_arg (v : value) : outcome Z :=
  match v with
  | VNum q =>
      if Qeq_bool (inject_Z (Qfloor q)) q then Ok (Qfloor q)
      else Raise (DataError "invalid input for query argument: an integer is required")
  | _ => Raise (DataError "invalid input for query argument: an integer is required")
  end.

(** *** Views of a table row *)

Definition opt_num (o : option Q) : value :=
  match o with Some q => VNum q | None => VNone end.

(** [dict(row)] for a row of [hinata_data]: keys are column names; the
    two TIMESTAMP WITH TIME ZONE columns come back as [datetime]s, and
    a JSONB column as the value that [json.loads] gives for its text. *)
Definition dict_of_row (r : data_row) : gmap string value :=
  list_to_map
    [("id", VStr (row_id r)); ("user_id", VStr (row_user_id r));
     ("timestamp", VDatetime (row_timestamp r)); ("source", VStr (row_source r));
     ("highlight", VStr (row_highlight r)); ("note", VStr (row_note r));
     ("address", VStr (row_address r)); ("tags", row_tags r);
     ("access_level", VStr (row_access_level r));
     ("enhanced_tags", row_enhanced_tags r);
     ("recommended_highlights", row_recommended_highlights r);
     ("semantic_analysis", row_semantic_analysis r);
     ("quality_score", opt_num (row_quality_score r));
     ("attention_weight", opt_num (row_attention_weight r));
     ("psp_influence_weight", opt_num (row_psp_influence_weight r));
     ("embedding_vector", row_embedding_vector r);
     ("processing_metadata", row_processing_metadata r);
     ("storage_tier", VStr (row_storage_tier r));
     ("is_deleted", VBool (row_is_deleted r));
     ("deleted_at", match row_deleted_at r with
                    | Some t => VDatetime t | None => VNone end)].

End Backend.
Export Backend.

(** ** Comparisons on scores *)

Definition Qgtb (a b : Q) : bool := negb (Qle_bool a b).
Definition Qltb (a b : Q) : bool := negb (Qle_bool b a).
Definition Qgeb (a b : Q) : bool := Qle_bool b a.

(** Python's [min] / [max] on two floats. *)
Definition py_min (a b : Q) : Q := if Qltb b a then b else a.
Definition py_max (a b : Q) : Q := if Qgtb b a then b else a.

(** ** Kernel/Core/HiNATAProcessor.py *)

Module HiNATAProcessor.

Inductive HiNATAProcessingStatus : Type :=
| RECEIVED | VALIDATED | ENHANCED | SCORED | STORED | INDEXED | COMPLETED | FAILED.

(** The dataclass [HiNATAData]; fields follow their annotations. *)
Record HiNATAData : Type := {
  id : string;
  timestamp : string;
  source : string;
  highlight : string;
  note : string;
  address : string;
  tag : list string;
  access : string;
  raw_data : value;
  enhanced_tags : option (list string);
  recommended_highlights : option (list string);
  semantic_analysis : option (gmap string value);
  attention_weight : option Q;
  attention_metrics : option (gmap string value);
  quality_score : option Q;
  psp_influence_weight : option Q;
  embedding_vector : option (list Q);
  processing_metadata : option (gmap string value)
}.

(** [ProcessingResult] without its timing field. *)
Record ProcessingResult : Type := {
  status : HiNATAProcessingStatus;
  hinata_id : value;
  error_message : option string;
  enhancements_applied : option (list string)
}.

(** *** HiNATAValidator *)

Definition REQUIRED_FIELDS : list string :=
  ["id"; "timestamp"; "source"; "highlight"; "note"; "address"; "tag"; "access"].

Definition ACCESS_LEVELS : list string := ["private"; "public"; "shared"].

(** [len(v)] *)
Definition py_len (v : value) : outcome Z :=
  match v with
  | VStr s => Ok (Z.of_nat (String.length s))
  | VStrs l => Ok (Z.of_nat (length l))
  | VNums l => Ok (Z.of_nat (length l))
  | VDict m => Ok (Z.of_nat (size m))
  | VNone | VBool _ | VNum _ | VDatetime _ => Raise (TypeError "object has no len()")
  end.

Definition is_list (v : value) : bool :=
  match v with VStrs _ | VNums _ => true | _ => false end.

Definition in_access_levels (v : value) : bool :=
  match v with
  | VStr s => bool_decide (s ∈ ACCESS_LEVELS)
  | _ => false
  end.

(** Text of a value inside an f-string; only strings are rendered
    exactly. *)
Definition fmt (v : value) : string :=
  match v with
  | VStr s => s
  | VNone => "None"
  | VBool true => "True"
  | VBool false => "False"
  | _ => "..."
  end.

Section Validator.
Context {RT : Runtime}.

(** The [try: fromisoformat(...) except ValueError] of [validate]: a
    value that is not a [str] raises [AttributeError] or [TypeError],
    which is not caught there. *)
Definition check_timestamp (v : value) : outcome bool :=
  s ← replace_receiver v;
  Ok (bool_decide (is_Some (fromisoformat (replace "Z" "+00:00" s)))).

Definition validate (hinata_data : gmap string value) : outcome (bool * list string) :=
  let errors :=
    (fun field => "Missing required field: " +:+ field) <$>
      filter (fun field => ¬ is_Some (hinata_data !! field)) REQUIRED_FIELDS in
  if negb (bool_decide (errors = [])) then Ok (false, errors)
  else
    tag_v ← getitem hinata_data "tag";
    access_v ← getitem hinata_data "access";
    timestamp_v ← getitem hinata_data "timestamp";
    highlight_v ← getitem hinata_data "highlight";
    note_v ← getitem hinata_data "note";
    let e1 := if is_list tag_v then [] else ["Field 'tag' must be a list"] in
    let e2 := if in_access_levels access_v then []
              else ["Invalid access level: " +:+ fmt access_v] in
    ts_ok ← check_timestamp timestamp_v;
    let e3 := if (ts_ok : bool) then [] else ["Invalid timestamp format"] in
    hl ← py_len highlight_v;
    let e4 := if bool_decide (10000 < hl)
              then ["Highlight text too long (max 10000 characters)"] else [] in
    nl ← py_len note_v;
    let e5 := if bool_decide (50000 < nl)
              then ["Note text too long (max 50000 characters)"] else [] in
    let errors := e1 ++ e2 ++ e3 ++ e4 ++ e5 in
    Ok (bool_decide (errors = []), errors).

(** [[tag.strip().lower() for tag in tags if tag.strip()]] *)
Definition standardize_tags (tags : list string) : list string :=
  (fun t => lower (strip t)) <$> filter (fun t => strip t ≠ "") tags.

(** The comprehension over an arbitrary value found under ['tag']. *)
Definition standardize_tag_value (v : value) : outcome value :=
  match v with
  | VStrs l => Ok (VStrs (standardize_tags l))
  | VStr s => Ok (VStrs (standardize_tags
                           ((fun c => String c EmptyString) <$> list_ascii_of_string s)))
  | VNums [] => Ok (VStrs [])
  | VNums (_ :: _) => Raise (AttributeError "'float' object has no attribute 'strip'")
  | VDict m => Ok (VStrs (standardize_tags (fst <$> map_to_list m)))
  | _ => Raise (TypeError "object is not iterable")
  end.

Definition standardize (hinata_data : gmap string value) : outcome (gmap string value) :=
  let standardized := hinata_data in
  standardized ←
    match standardized !! "timestamp" with
    | Some v =>
        s ← replace_receiver v;
        dt ← parse_utc s;
        Ok (<["timestamp" := VStr (isoformat dt)]> standardized)
    | None => Ok standardized
    end;
  standardized ←
    match standardized !! "tag" with
    | Some v => tags ← standardize_tag_value v;
                Ok (<["tag" := tags]> standardized)
    | None => Ok standardized
    end;
  Ok (match standardized !! "raw_data" with
      | None => <["raw_data" := VDict ∅]> standardized
      | Some _ => standardized
      end).

End Validator.

(** *** Construction of the dataclass from a dict: [HiNATAData(    **d)] *)

Definition HiNATAData_fields : list string :=
  REQUIRED_FIELDS ++
  ["raw_data"; "enhanced_tags"; "recommended_highlights"; "semantic_analysis";
   "attention_weight"; "attention_metrics"; "quality_score";
   "psp_influence_weight"; "embedding_vector"; "processing_metadata"].

Definition opt_strs (o : option value) : option (list string) :=
  match o with Some (VStrs l) => Some l | _ => None end.
Definition opt_nums (o : option value) : option (list Q) :=
  match o with Some (VNums l) => Some l | _ => None end.
Definition opt_q (o : option value) : option Q :=
  match o with Some (VNum q) => Some q | _ => None end.
Definition opt_dict (o : option value) : option (gmap string value) :=
  match o with Some (VDict m) => Some m | _ => None end.

(** Unknown keyword arguments and missing required ones raise
    [TypeError]; the fields are read at their annotated types. *)
Definition HiNATAData_of_dict (d : gmap string value) : outcome HiNATAData :=
  if negb (bool_decide (Forall (fun k => k ∈ HiNATAData_fields) (fst <$> map_to_list d)))
  then Raise (TypeError "__init__() got an unexpected keyword argument")
  else
    let req k := match d !! k with
                 | Some v => Ok v
                 | None => Raise (TypeError "__init__() missing required argument")
                 end in
    id_ ← req "id" ≫= as_str;
    timestamp_ ← req "timestamp" ≫= as_str;
    source_ ← req "source" ≫= as_str;
    highlight_ ← req "highlight" ≫= as_str;
    note_ ← req "note" ≫= as_str;
    address_ ← req "address" ≫= as_str;
    tag_ ← req "tag" ≫= as_strs;
    access_ ← req "access" ≫= as_str;
    raw_data_ ← req "raw_data";
    Ok {| id := id_; timestamp := timestamp_; source := source_;
          highlight := highlight_; note := note_; address := address_;
          tag := tag_; access := access_; raw_data := raw_data_;
          enhanced_tags := opt_strs (d !! "enhanced_tags");
          recommended_highlights := opt_strs (d !! "recommended_highlights");
          semantic_analysis := opt_dict (d !! "semantic_analysis");
          attention_weight := opt_q (d !! "attention_weight");
          attention_metrics := opt_dict (d !! "attention_metrics");
          quality_score := opt_q (d !! "quality_score");
          psp_influence_weight := opt_q (d !! "psp_influence_weight");
          embedding_vector := opt_nums (d !! "embedding_vector");
          processing_metadata := opt_dict (d !! "processing_metadata") |}.

Definition of_opt_strs (o : option (list string)) : value :=
  match o with Some l => VStrs l | None => VNone end.
Definition of_opt_nums (o : option (list Q)) : value :=
  match o with Some l => VNums l | None => VNone end.
Definition of_opt_dict (o : option (gmap string value)) : value :=
  match o with Some m => VDict m | None => VNone end.

(** [dataclasses.asdict] *)
Definition asdict (h : HiNATAData) : gmap string value :=
  list_to_map
    [("id", VStr (id h)); ("timestamp", VStr (timestamp h));
     ("source", VStr (source h)); ("highlight", VStr (highlight h));
     ("note", VStr (note h)); ("address", VStr (address h));
     ("tag", VStrs (tag h)); ("access", VStr (access h));
     ("raw_data", raw_data h);
     ("enhanced_tags", of_opt_strs (enhanced_tags h));
     ("recommended_highlights", of_opt_strs (recommended_highlights h));
     ("semantic_analysis", of_opt_dict (semantic_analysis h));
     ("attention_weight", opt_num (attention_weight h));
     ("attention_metrics", of_opt_dict (attention_metrics h));
     ("quality_score", opt_num (quality_score h));
     ("psp_influence_weight", opt_num (psp_influence_weight h));
     ("embedding_vector", of_opt_nums (embedding_vector h));
     ("processing_metadata", of_opt_dict (processing_metadata h))].

(** *** Enrichment and scoring collaborators

    The four stages of [AIEnhancer], [QualityScorer] and
    [AttentionWeightCalculator] (which reads the user's history from
    the relational store).  Any of them can raise. *)
Class Models : Type := {
  generate_semantic_tags : HiNATAData → outcome (list string);
  extract_recommended_highlights : HiNATAData → outcome (list string);
  analyze_semantics : HiNATAData → outcome (gmap string value);
  generate_embedding : HiNATAData → outcome (list Q);
  calculate_quality_score : HiNATAData → outcome Q;
  calculate_attention_weight :
    Store → HiNATAData → string → outcome (Q * gmap string value)
}.

(** *** HiNATAProcessor *)

Definition set_enhancements (h : HiNATAData)
    (et : option (list string)) (rh : option (list string))
    (sa : option (gmap string value)) (ev : option (list Q)) : HiNATAData :=
  {| id := id h; timestamp := timestamp h; source := source h;
     highlight := highlight h; note := note h; address := address h;
     tag := tag h; access := access h; raw_data := raw_data h;
     enhanced_tags := et; recommended_highlights := rh;
     semantic_analysis := sa;
     attention_weight := attention_weight h;
     attention_metrics := attention_metrics h;
     quality_score := quality_score h;
     psp_influence_weight := psp_influence_weight h;
     embedding_vector := ev;
     processing_metadata := processing_metadata h |}.

Definition set_scores (h : HiNATAData)
    (qs aw : option Q) (am : option (gmap string value))
    (piw : option Q) (pm : option (gmap string value)) : HiNATAData :=
  {| id := id h; timestamp := timestamp h; source := source h;
     highlight := highlight h; note := note h; address := address h;
     tag := tag h; access := access h; raw_data := raw_data h;
     enhanced_tags := enhanced_tags h;
     recommended_highlights := recommended_highlights h;
     semantic_analysis := semantic_analysis h;
     attention_weight := aw; attention_metrics := am;
     quality_score := qs; psp_influence_weight := piw;
     embedding_vector := embedding_vector h;
     processing_metadata := pm |}.

Definition ENHANCEMENTS : list string :=
  ["semantic_tags"; "recommended_highlights"; "embedding"; "quality_score";
   "attention_weight"].

(** [_calculate_psp_influence_weight] *)
Definition _calculate_psp_influence_weight (quality_score attention_weight : Q) : Q :=
  let base_influence := (quality_score * 0.6 + attention_weight * 0.4)%Q in
  let min_influence := 0.05%Q in
  let max_influence := 1.0%Q in
  (min_influence + (max_influence - min_influence) * base_influence)%Q.

Section Processor.
Context {RT : Runtime} {MD : Models}.

(** [AIEnhancer.enhance_hinata]: [enhanced] aliases [hinata], so each
    stage sees the fields written by the stages before it. *)
Definition enhance_hinata (hinata : HiNATAData) : outcome HiNATAData :=
  et ← generate_semantic_tags hinata;
  let h1 := set_enhancements hinata (Some et) (recommended_highlights hinata)
              (semantic_analysis hinata) (embedding_vector hinata) in
  rh ← extract_recommended_highlights h1;
  let h2 := set_enhancements h1 (Some et) (Some rh)
              (semantic_analysis h1) (embedding_vector h1) in
  sa ← analyze_semantics h2;
  let h3 := set_enhancements h2 (Some et) (Some rh) (Some sa) (embedding_vector h2) in
  ev ← generate_embedding h3;
  Ok (set_enhancements h3 (Some et) (Some rh) (Some sa) (Some ev)).

(** [hinata.psp_influence_weight or 0] *)
Definition influence_or_0 (hinata : HiNATAData) : Q :=
  default 0%Q (psp_influence_weight hinata).

Definition _determine_storage_tier (now : Z) (hinata : HiNATAData) : outcome string :=
  let influence_weight := influence_or_0 hinata in
  created_time ← parse_utc (timestamp hinata);
  recency_days ← days_since now created_time;
  if Qgtb influence_weight 0.7 || bool_decide (recency_days < 7) then Ok "hot"
  else if Qgtb influence_weight 0.3 || bool_decide (recency_days < 30) then Ok "warm"
  else Ok "cold".

Definition _store_in_hot_layer (now : Z) (hinata : HiNATAData) (user_id : string)
    : io Store unit :=
  let hinata_data := asdict hinata in
  _ ← lift (json_dumps (VDict hinata_data));
  _ ← setex now ("hinata:full:" +:+ id hinata) (7 * 24 * 3600) (Json hinata_data);
  _ ← zadd ("user:hot_hinata:" +:+ user_id) (id hinata) (influence_or_0 hinata);
  for_each (default [] (enhanced_tags hinata)) (fun tag =>
    zadd ("topic:hot_hinata:" +:+ tag) (id hinata) (influence_or_0 hinata)).

(** A plain [INSERT] into [hinata_data].  Its third argument, for the
    TIMESTAMP WITH TIME ZONE column, is [hinata.timestamp], a [str].  A
    second row with the same primary key is refused by the database. *)
Definition _store_in_warm_layer (hinata : HiNATAData) (user_id : string)
    : io Store unit :=
  processing_metadata ←
    lift (json_dumps (VDict (default ∅ (processing_metadata hinata))));
  timestamp_arg ← lift (timestamptz_arg (VStr (timestamp hinata)));
  s ← get_state;
  match hinata_data s !! id hinata with
  | Some _ => raise (DatabaseError "duplicate key value violates unique constraint")
  | None =>
      modify (with_hinata_data (insert (id hinata)
        {| row_id := id hinata; row_user_id := user_id;
           row_timestamp := timestamp_arg; row_source := source hinata;
           row_highlight := highlight hinata; row_note := note hinata;
           row_address := address hinata; row_tags := VStrs (tag hinata);
           row_access_level := access hinata;
           row_enhanced_tags := VStrs (default [] (enhanced_tags hinata));
           row_recommended_highlights := VNone;
           row_semantic_analysis := VNone;
           row_quality_score := quality_score hinata;
           row_attention_weight := attention_weight hinata;
           row_psp_influence_weight := psp_influence_weight hinata;
           row_embedding_vector := VNums (default [] (embedding_vector hinata));
           row_processing_metadata := processing_metadata;
           row_storage_tier := "warm";
           row_is_deleted := false; row_deleted_at := None |}))
  end.

(** "For simplicity, also stored in PostgreSQL for now." *)
Definition _store_in_cold_layer (hinata : HiNATAData) (user_id : string)
    : io Store unit :=
  _store_in_warm_layer hinata user_id.

(** A plain [INSERT] into [hinata_index]; [hinata.timestamp] is offered
    for the BIGINT column. *)
Definition _build_indexes (now : Z) (hinata : HiNATAData) (user_id : string)
    : io Store unit :=
  tier ← lift (_determine_storage_tier now hinata);
  timestamp_arg ← lift (bigint_arg (VStr (timestamp hinata)));
  s ← get_state;
  match hinata_index s !! id hinata with
  | Some _ => raise (DatabaseError "duplicate key value violates unique constraint")
  | None =>
      modify (with_hinata_index (insert (id hinata)
        {| ix_hinata_id := id hinata; ix_user_id := user_id;
           ix_timestamp := timestamp_arg;
           ix_source := source hinata;
           ix_psp_influence_weight := influence_or_0 hinata;
           ix_attention_weight := default 0%Q (attention_weight hinata);
           ix_quality_score := default 0%Q (quality_score hinata);
           ix_storage_tier := tier;
           ix_tags := tag hinata ++ default [] (enhanced_tags hinata);
           ix_content_hash := md5 (highlight hinata +:+ note hinata) |}))
  end.

Definition _store_and_index (now : Z) (hinata : HiNATAData) (user_id : string)
    : io Store unit :=
  storage_tier ← lift (_determine_storage_tier now hinata);
  _ ← (if String.eqb storage_tier "hot" then _store_in_hot_layer now hinata user_id
       else if String.eqb storage_tier "warm" then _store_in_warm_layer hinata user_id
       else _store_in_cold_layer hinata user_id);
  _build_indexes now hinata user_id.

Definition _process_single_hinata (now : Z) (hinata_dict : gmap string value)
    (user_id : string) : io Store ProcessingResult :=
  (* 1. validate *)
  '(is_valid, errors) ← lift (validate hinata_dict);
  if negb is_valid
  then raise (ValueError ("Validation failed: " +:+ String.concat ", " errors))
  else
    (* 2. standardize *)
    standardized ← lift (standardize hinata_dict);
    hinata ← lift (HiNATAData_of_dict standardized);
    (* 3. enrichment *)
    enhanced_hinata ← lift (enhance_hinata hinata);
    (* 4. quality *)
    quality_score ← lift (calculate_quality_score enhanced_hinata);
    let h4 := set_scores enhanced_hinata (Some quality_score)
                (attention_weight enhanced_hinata) (attention_metrics enhanced_hinata)
                (psp_influence_weight enhanced_hinata)
                (processing_metadata enhanced_hinata) in
    (* 5. attention *)
    s ← get_state;
    '(attention_weight, attention_metrics) ←
      lift (calculate_attention_weight s h4 user_id);
    (* 6. influence *)
    let psp_influence_weight :=
      _calculate_psp_influence_weight quality_score attention_weight in
    (* 7. processing metadata *)
    let metadata : gmap string value :=
      list_to_map [("processed_at", VStr (isoformat (utc now)));
                   ("processor_version", VStr "1.0.0");
                   ("enhancements_applied", VStrs ENHANCEMENTS)] in
    let h7 := set_scores h4 (Some quality_score) (Some attention_weight)
                (Some attention_metrics) (Some psp_influence_weight)
                (Some metadata) in
    (* 8. store and index *)
    _ ← _store_and_index now h7 user_id;
    mret {| status := COMPLETED; hinata_id := VStr (id h7);
            error_message := None;
            enhancements_applied := Some ENHANCEMENTS |}.

Fixpoint process_hinata_batch (now : Z) (hinata_batch : list (gmap string value))
    (user_id : string) : io Store (list ProcessingResult) :=
  match hinata_batch with
  | [] => mret []
  | hinata_dict :: rest =>
      result ← try_except (_process_single_hinata now hinata_dict user_id)
                 (fun e => mret {| status := FAILED;
                                   hinata_id := get hinata_dict "id" (VStr "unknown");
                                   error_message := Some (str_of_exn e);
                                   enhancements_applied := None |});
      results ← process_hinata_batch now rest user_id;
      mret (result :: results)
  end.

End Processor.

End HiNATAProcessor.

(** ** Sorting and slicing helpers *)

(** Stable insertion sort; [before x y] tells that [x] may stand before
    [y].  With [before x y := key y <= key x] this is
    [l.sort(key=key, reverse=True)]. *)
Fixpoint insert_by {A} (before : A → A → bool) (x : A) (l : list A) : list A :=
  match l with
  | [] => [x]
  | y :: l' => if before x y then x :: y :: l' else y :: insert_by before x l'
  end.

Fixpoint sort_by {A} (before : A → A → bool) (l : list A) : list A :=
  match l with
  | [] => []
  | x :: l' => insert_by before x (sort_by before l')
  end.

(** [l[:n]] for a Python int [n]. *)
Definition slice_to {A} (n : Z) (l : list A) : list A :=
  if bool_decide (0 <= n) then take (Z.to_nat n) l
  else take (length l - Z.to_nat (- n)) l.

(** ** Kernel/Core/StorageEngine.py *)

Module StorageEngine.

Inductive StorageTier : Type := HOT | WARM | COLD.

Record RetrievalQuery : Type := {
  user_id : string;
  query_type : string;
  query_text : option string;
  semantic_vector : option (list Q);
  filters : gmap string value;
  time_range : option (Z * Z);
  limit : Z;
  min_relevance_score : Q
}.

Record RetrievalResult : Type := {
  hinata_id : string;
  relevance_score : Q;
  storage_tier : StorageTier;
  content_summary : string;
  metadata : gmap string value
}.

(** The criteria dict of [WarmStorageManager.query_by_criteria]. *)
Record Criteria : Type := {
  min_influence_weight : option Q;
  source_filter : option (list string);
  criteria_time_range : option (Z * Z);
  criteria_tags : option (list string);
  criteria_limit : option Z
}.

(** Engine configuration.  The vector and full-text indexes are
    external services (ChromaDB, Elasticsearch); when enabled they are
    given as the function from a query to the ids they return. *)
Record Config : Type := {
  cache_ttl : Z;
  vector_index : option (list Q → string → gmap string value → list string);
  fulltext_index : option (string → string → gmap string value → list string)
}.

(** The engine: the shared backend plus its in-process cache, keyed by
    ["{user_id}:{hinata_id}"], of documents with their caching time. *)
Record Engine : Type := {
  store : Store;
  cache : gmap string (gmap string value * Z)
}.

Definition on_store {A} (c : io Store A) : io Engine A :=
  fun e => let '(r, s') := c (store e) in (r, {| store := s'; cache := cache e |}).

(** [largest finite double]; [float.__pow__] raises [OverflowError]
    beyond it. *)
Definition DBL_MAX : Q := inject_Z (2 ^ 1024 - 2 ^ 971).

Section Engine.
Context {RT : Runtime} (config : Config).

(** *** HotStorageManager *)

Definition hot_data_ttl : Z := 7 * 24 * 3600.

(** [int(datetime.fromisoformat(ts.replace('Z', '')).timestamp())] *)
Definition epoch_of (ts : value) : outcome Z :=
  s ← replace_receiver ts;
  match fromisoformat (replace "Z" "" s) with
  | Some dt => Ok (posix dt)
  | None => Raise (ValueError "Invalid isoformat string")
  end.

Definition hot_store_hinata (now : Z) (hinata_data : gmap string value)
    (user_id : string) : io Store unit :=
  hinata_id ← lift (getitem hinata_data "id" ≫= as_str);
  _ ← lift (json_dumps (VDict hinata_data));
  _ ← setex now ("hinata:full:" +:+ hinata_id) hot_data_ttl (Gzip hinata_data);
  influence_weight ← lift (as_num (get hinata_data "psp_influence_weight" (VNum 0)));
  _ ← zadd ("user:hot_hinata:" +:+ user_id) hinata_id influence_weight;
  enhanced_tags ← lift (as_strs (get hinata_data "enhanced_tags" (VStrs [])));
  _ ← for_each enhanced_tags (fun tag =>
         zadd ("topic:hot_hinata:" +:+ tag) hinata_id influence_weight);
  timestamp ← lift (getitem hinata_data "timestamp" ≫= epoch_of);
  _ ← zadd ("timeline:hot_hinata:" +:+ user_id) hinata_id (inject_Z timestamp);
  source ← lift (as_str (get hinata_data "source" (VStr "")));
  sadd ("source:hot_hinata:" +:+ source) hinata_id.

(** [gzip.decompress] fails on anything that was not compressed. *)
Definition hot_get_hinata (now : Z) (hinata_id : string)
    : io Store (option (gmap string value)) :=
  compressed_data ← redis_get now ("hinata:full:" +:+ hinata_id);
  mret (match compressed_data with
        | Some (Gzip d) => Some d
        | _ => None
        end).

Definition hot_query_by_time_range (user_id : string) (start_time end_time : Z)
    : io Store (list string) :=
  zrangebyscore ("timeline:hot_hinata:" +:+ user_id)
    (inject_Z start_time) (inject_Z end_time).

(** *** WarmStorageManager *)

Definition _update_index_table (hinata_data : gmap string value) (user_id : string)
    : io Store unit :=
  timestamp ← lift (getitem hinata_data "timestamp" ≫= epoch_of);
  highlight ← lift (getitem hinata_data "highlight" ≫= as_str);
  note ← lift (getitem hinata_data "note" ≫= as_str);
  let content_hash := md5 (highlight +:+ note) in
  tag ← lift (as_strs (get hinata_data "tag" (VStrs [])));
  enhanced_tags ← lift (as_strs (get hinata_data "enhanced_tags" (VStrs [])));
  let all_tags := tag ++ enhanced_tags in
  hinata_id ← lift (getitem hinata_data "id" ≫= as_str);
  source ← lift (getitem hinata_data "source" ≫= as_str);
  influence ← lift (as_num (get hinata_data "psp_influence_weight" (VNum 0)));
  attention ← lift (as_num (get hinata_data "attention_weight" (VNum 0)));
  quality ← lift (as_num (get hinata_data "quality_score" (VNum 0)));
  modify (with_hinata_index (fun t =>
    match t !! hinata_id with
    | Some old =>   (* ON CONFLICT (hinata_id) DO UPDATE SET ... *)
        <[hinata_id :=
            {| ix_hinata_id := ix_hinata_id old; ix_user_id := ix_user_id old;
               ix_timestamp := timestamp;
               ix_source := ix_source old;
               ix_psp_influence_weight := influence;
               ix_attention_weight := attention;
               ix_quality_score := quality;
               ix_storage_tier := ix_storage_tier old;
               ix_tags := all_tags;
               ix_content_hash := ix_content_hash old |}]> t
    | None =>
        <[hinata_id :=
            {| ix_hinata_id := hinata_id; ix_user_id := user_id;
               ix_timestamp := timestamp;
               ix_source := source;
               ix_psp_influence_weight := influence;
               ix_attention_weight := attention;
               ix_quality_score := quality;
               ix_storage_tier := "warm";
               ix_tags := all_tags;
               ix_content_hash := content_hash |}]> t
    end)).

(** The [INSERT ... ON CONFLICT (id) DO UPDATE] into [hinata_data],
    followed by [_update_index_table] on the same connection (no
    transaction is opened, so the two statements commit separately).
    Python first evaluates the argument expressions, in order; asyncpg
    then encodes each argument for its column. *)
Definition warm_store_hinata (hinata_data : gmap string value) (user_id : string)
    : io Store unit :=
  (* the argument expressions *)
  id_v ← lift (getitem hinata_data "id");
  timestamp_v ← lift (getitem hinata_data "timestamp");
  source_v ← lift (getitem hinata_data "source");
  highlight_v ← lift (getitem hinata_data "highlight");
  note_v ← lift (getitem hinata_data "note");
  address_v ← lift (getitem hinata_data "address");
  tags ← lift (json_dumps (get hinata_data "tag" (VStrs [])));
  access_v ← lift (getitem hinata_data "access");
  enhanced_tags ← lift (json_dumps (get hinata_data "enhanced_tags" (VStrs [])));
  recommended_highlights ←
    lift (json_dumps (get hinata_data "recommended_highlights" (VStrs [])));
  semantic_analysis ← lift (json_dumps (get hinata_data "semantic_analysis" (VDict ∅)));
  embedding_vector ← lift (json_dumps (get hinata_data "embedding_vector" (VNums [])));
  processing_metadata ←
    lift (json_dumps (get hinata_data "processing_metadata" (VDict ∅)));
  (* their encoding for the columns *)
  hinata_id ← lift (text_arg id_v);
  timestamp ← lift (timestamptz_arg timestamp_v);
  source ← lift (text_arg source_v);
  highlight ← lift (text_arg highlight_v);
  note ← lift (text_arg note_v);
  address ← lift (text_arg address_v);
  access ← lift (text_arg access_v);
  quality ← lift (real_arg (get hinata_data "quality_score" VNone));
  attention ← lift (real_arg (get hinata_data "attention_weight" VNone));
  influence ← lift (real_arg (get hinata_data "psp_influence_weight" VNone));
  _ ← modify (with_hinata_data (fun t =>
    match t !! hinata_id with
    | Some old =>   (* ON CONFLICT (id) DO UPDATE SET ... *)
        <[hinata_id :=
            {| row_id := row_id old; row_user_id := row_user_id old;
               row_timestamp := timestamp; row_source := row_source old;
               row_highlight := row_highlight old; row_note := row_note old;
               row_address := row_address old; row_tags := row_tags old;
               row_access_level := row_access_level old;
               row_enhanced_tags := enhanced_tags;
               row_recommended_highlights := row_recommended_highlights old;
               row_semantic_analysis := row_semantic_analysis old;
               row_quality_score := quality;
               row_attention_weight := attention;
               row_psp_influence_weight := influence;
               row_embedding_vector := row_embedding_vector old;
               row_processing_metadata := processing_metadata;
               row_storage_tier := row_storage_tier old;
               row_is_deleted := row_is_deleted old;
               row_deleted_at := row_deleted_at old |}]> t
    | None =>
        <[hinata_id :=
            {| row_id := hinata_id; row_user_id := user_id;
               row_timestamp := timestamp; row_source := source;
               row_highlight := highlight; row_note := note;
               row_address := address;
               row_tags := tags;
               row_access_level := access;
               row_enhanced_tags := enhanced_tags;
               row_recommended_highlights := recommended_highlights;
               row_semantic_analysis := semantic_analysis;
               row_quality_score := quality;
               row_attention_weight := attention;
               row_psp_influence_weight := influence;
               row_embedding_vector := embedding_vector;
               row_processing_metadata := processing_metadata;
               row_storage_tier := "warm";
               row_is_deleted := false; row_deleted_at := None |}]> t
    end));
  _update_index_table hinata_data user_id.

(** [SELECT * FROM hinata_data WHERE id = $1] *)
Definition warm_get_hinata (hinata_id : string)
    : io Store (option (gmap string value)) :=
  s ← get_state;
  mret (dict_of_row <$> hinata_data s !! hinata_id).

Definition opt_truthy {A} (truth : A → bool) (o : option A) : option A :=
  match o with
  | Some a => if truth a then Some a else None
  | None => None
  end.

Definition nonempty {A} (l : list A) : bool :=
  match l with [] => false | _ => true end.

(** Sort key of the [timestamp] column of [hinata_index]. *)
Definition ix_time (r : index_row) : Q := inject_Z (ix_timestamp r).

Definition index_before (a b : index_row) : bool :=
  Qgtb (ix_psp_influence_weight a) (ix_psp_influence_weight b)
  || (Qeq_bool (ix_psp_influence_weight a) (ix_psp_influence_weight b)
      && Qgeb (ix_time a) (ix_time b)).

Definition query_by_criteria (user_id : string) (criteria : Criteria)
    : io Store (list string) :=
  s ← get_state;
  let min_w := opt_truthy (fun q => negb (Qeq_bool q 0)) (min_influence_weight criteria) in
  let sources := opt_truthy nonempty (source_filter criteria) in
  let tags := opt_truthy nonempty (criteria_tags criteria) in
  let lim := opt_truthy (fun n => negb (n =? 0)) (criteria_limit criteria) in
  let keep (r : index_row) : bool :=
    String.eqb (ix_user_id r) user_id
    && match min_w with
       | Some w => Qgeb (ix_psp_influence_weight r) w | None => true end
    && match sources with
       | Some l => bool_decide (ix_source r ∈ l) | None => true end
    && match criteria_time_range criteria with
       | Some (t0, t1) => Qgeb (ix_time r) (inject_Z t0) && Qle_bool (ix_time r) (inject_Z t1)
       | None => true end
    && match tags with
       | Some l => bool_decide (Exists (fun t => t ∈ ix_tags r) l) | None => true end in
  let rows := sort_by index_before (filter (fun r => keep r = true)
                                      (snd <$> map_to_list (hinata_index s))) in
  match tags, lim with
  | Some _, Some _ =>
      (* the tag clause consumes a placeholder number without a parameter *)
      raise (DatabaseError "could not determine data type of parameter")
  | _, Some n =>
      if bool_decide (n < 0) then raise (DatabaseError "LIMIT must not be negative")
      else mret (ix_hinata_id <$> take (Z.to_nat n) rows)
  | _, None => mret (ix_hinata_id <$> rows)
  end.

(** *** ColdStorageManager *)

(** [{h['id']: h for h in existing}] followed by the assignment of each
    new document and [list(d.values())]: insertion order is kept and a
    document with a known id replaces the old one in place. *)
Fixpoint upsert_doc (key : value → bool) (h : gmap string value)
    (l : list (gmap string value)) : list (gmap string value) :=
  match l with
  | [] => [h]
  | h' :: l' =>
      if key (get h' "id" VNone) then h :: l' else h' :: upsert_doc key h l'
  end.

Definition same_str (s : string) (v : value) : bool :=
  match v with VStr s' => String.eqb s s' | _ => false end.

Definition _store_date_batch (hinata_list : list (gmap string value))
    (user_id date_str : string) : io Store unit :=
  s ← get_state;
  let existing_data := default [] (cold_data s !! (user_id, date_str)) in
  ids ← lift (mapM (fun h => getitem h "id" ≫= as_str) (existing_data ++ hinata_list));
  merged ← lift (foldl (fun acc h =>
                     acc ← acc;
                     i ← getitem h "id" ≫= as_str;
                     Ok (upsert_doc (same_str i) h acc))
                  (Ok existing_data) hinata_list);
  _ ← lift (mapM (fun h => json_dumps (VDict h)) merged);
  modify (with_cold (insert (user_id, date_str) merged)
                    (insert (user_id, date_str) (list_of_set ids))).

(** Called by the engine with a single document. *)
Definition store_hinata_batch (hinata_batch : list (gmap string value))
    (user_id : string) : io Store unit :=
  for_each hinata_batch (fun hinata =>
    ts ← lift (getitem hinata "timestamp" ≫= as_str);
    _store_date_batch [hinata] user_id (prefix 10 ts)).

Definition _get_hinata_from_date_file (hinata_id user_id date_str : string)
    : io Store (option (gmap string value)) :=
  s ← get_state;
  mret (match cold_data s !! (user_id, date_str) with
        | None => None
        | Some hinata_list =>
            (* a document without ['id'] raises inside the [try] *)
            let fix find (l : list (gmap string value)) :=
              match l with
              | [] => None
              | h :: l' =>
                  match h !! "id" with
                  | None => None
                  | Some v => if same_str hinata_id v then Some h else find l'
                  end
              end in
            find hinata_list
        end).

Definition _search_hinata_in_cold_storage (hinata_id user_id : string)
    : io Store (option (gmap string value)) :=
  s ← get_state;
  let index_files :=
    filter (fun p => fst (fst p) = user_id) (map_to_list (cold_index s)) in
  match filter (fun p => hinata_id ∈ snd p) index_files with
  | [] => mret None
  | ((_, date_str), _) :: _ => _get_hinata_from_date_file hinata_id user_id date_str
  end.

(** [ColdStorageManager.get_hinata] without a date hint. *)
Definition cold_get_hinata (hinata_id user_id : string)
    : io Store (option (gmap string value)) :=
  _search_hinata_in_cold_storage hinata_id user_id.

(** *** StorageEngine *)

Definition _determine_storage_tier (now : Z) (hinata_data : gmap string value)
    : outcome StorageTier :=
  let influence_weight := get hinata_data "psp_influence_weight" (VNum 0) in
  ts ← getitem hinata_data "timestamp";
  created_time ← replace_receiver ts ≫= parse_utc;
  recency_days ← days_since now created_time;
  influence_weight ← as_num influence_weight;
  if Qgtb influence_weight 0.7 || bool_decide (recency_days < 7) then Ok HOT
  else if Qgtb influence_weight 0.3 || bool_decide (recency_days < 30) then Ok WARM
  else Ok COLD.

(** [store_hinata]; index building on the external services and the
    metric counters are left out. *)
Definition store_hinata (now : Z) (hinata_data : gmap string value)
    (user_id : string) : io Engine unit :=
  storage_tier ← lift (_determine_storage_tier now hinata_data);
  match storage_tier with
  | HOT => on_store (hot_store_hinata now hinata_data user_id)
  | WARM => on_store (warm_store_hinata hinata_data user_id)
  | COLD => on_store (store_hinata_batch [hinata_data] user_id)
  end.

(** [if not hinata_data]: [None] and the empty dict are falsy. *)
Definition found (o : option (gmap string value)) : bool :=
  match o with
  | Some d => truthy (VDict d)
  | None => false
  end.

(** The part of [retrieve_hinata] after a cache miss: probe hot, warm
    and cold in turn, then fill the cache. *)
Definition probe_tiers (now : Z) (hinata_id user_id : string)
    : io Engine (option (gmap string value)) :=
  let cache_key := user_id +:+ ":" +:+ hinata_id in
  hinata_data ← on_store (hot_get_hinata now hinata_id);
  hinata_data ← (if found hinata_data then mret hinata_data
                 else on_store (warm_get_hinata hinata_id));
  hinata_data ← (if found hinata_data then mret hinata_data
                 else on_store (cold_get_hinata hinata_id user_id));
  _ ← match hinata_data with
      | Some d =>
          if found hinata_data
          then modify (fun e => {| store := store e;
                                   cache := <[cache_key := (d, now)]> (cache e) |})
          else mret tt
      | None => mret tt
      end;
  mret hinata_data.

Definition retrieve_hinata (now : Z) (hinata_id user_id : string)
    : io Engine (option (gmap string value)) :=
  let cache_key := user_id +:+ ":" +:+ hinata_id in
  e ← get_state;
  match cache e !! cache_key with
  | Some (cached_data, timestamp) =>
      if bool_decide (now - timestamp < cache_ttl config)
      then mret (Some cached_data)
      else probe_tiers now hinata_id user_id
  | None => probe_tiers now hinata_id user_id
  end.

(** [_calculate_recency_score]; the bare [except] turns every failure
    (a timestamp that is not a [str], does not parse or carries no UTC
    offset, overflow of the power) into the score 0.5. *)
Definition _calculate_recency_score (now : Z) (timestamp : value) : Q :=
  match (s ← replace_receiver timestamp;
         created_time ← parse_utc s;
         days_since now created_time) with
  | Ok days_ago =>
      let decay := (0.95 ^ days_ago)%Q in
      if Qgtb decay DBL_MAX then 0.5%Q   (* OverflowError *)
      else py_max 0.1 (1.0 * decay)
  | Raise _ => 0.5%Q
  end.

(** [_calculate_relevance_score]: [sum] adds the five values of
    [factors] to 0 in insertion order. *)
Definition _calculate_relevance_score (now : Z) (hinata_data : gmap string value)
    (query : RetrievalQuery) : outcome Q :=
  w ← as_num (get hinata_data "psp_influence_weight" (VNum 0));
  a ← as_num (get hinata_data "attention_weight" (VNum 0));
  q ← as_num (get hinata_data "quality_score" (VNum 0));
  let f_psp_influence_weight := (w * 0.3)%Q in
  let f_attention_weight := (a * 0.25)%Q in
  let f_quality_score := (q * 0.2)%Q in
  let f_recency :=
    (_calculate_recency_score now (get hinata_data "timestamp" (VStr "")) * 0.15)%Q in
  let f_source_preference := 0.1%Q in
  Ok (0 + f_psp_influence_weight + f_attention_weight + f_quality_score
        + f_recency + f_source_preference)%Q.

(** [s[:100]] on the value found under ['highlight']. *)
Definition summary_of (v : value) : outcome string :=
  match v with
  | VStr s => Ok (prefix 100 s)
  | VStrs _ | VNums _ => Raise (TypeError "RetrievalResult.content_summary: not a str")
  | _ => Raise (TypeError "object is not subscriptable")
  end.

Definition result_before (a b : RetrievalResult) : bool :=
  Qgeb (relevance_score a) (relevance_score b).

Fixpoint rank_loop (now : Z) (hinata_ids : list string) (query : RetrievalQuery)
    : io Engine (list RetrievalResult) :=
  match hinata_ids with
  | [] => mret []
  | hinata_id :: rest =>
      hinata_data ← retrieve_hinata now hinata_id (user_id query);
      match hinata_data with
      | Some d =>
          if negb (found hinata_data) then rank_loop now rest query
          else
            relevance_score ← lift (_calculate_relevance_score now d query);
            if Qltb relevance_score (min_relevance_score query)
            then rank_loop now rest query
            else
              storage_tier ← lift (_determine_storage_tier now d);
              summary ← lift (getitem d "highlight" ≫= summary_of);
              let result :=
                {| hinata_id := hinata_id;
                   relevance_score := relevance_score;
                   storage_tier := storage_tier;
                   content_summary := summary;
                   metadata := list_to_map
                     [("psp_influence_weight", get d "psp_influence_weight" (VNum 0));
                      ("attention_weight", get d "attention_weight" (VNum 0));
                      ("quality_score", get d "quality_score" (VNum 0));
                      ("source", get d "source" (VStr ""));
                      ("timestamp", get d "timestamp" (VStr ""))] |} in
              results ← rank_loop now rest query;
              mret (result :: results)
      | None => rank_loop now rest query
      end
  end.

Definition _rank_and_filter_results (now : Z) (hinata_ids : list string)
    (query : RetrievalQuery) : io Engine (list RetrievalResult) :=
  results ← rank_loop now hinata_ids query;
  mret (sort_by result_before results).

(** [all_candidates.update(ids)] on the candidates collected so far. *)
Definition update_candidates (all_candidates ids : list string) : list string :=
  list_of_set (all_candidates ++ ids).

Definition multi_strategy_search (now : Z) (query : RetrievalQuery)
    : io Engine (list RetrievalResult) :=
  let all_candidates : list string := [] in
  (* 1: semantic similarity *)
  let all_candidates :=
    match vector_index config, opt_truthy nonempty (semantic_vector query) with
    | Some semantic_search, Some v =>
        update_candidates all_candidates (semantic_search v (user_id query) (filters query))
    | _, _ => all_candidates
    end in
  (* 2: full text *)
  let all_candidates :=
    match fulltext_index config,
          opt_truthy (fun t => negb (String.eqb t "")) (query_text query) with
    | Some search_text, Some t =>
        update_candidates all_candidates (search_text t (user_id query) (filters query))
    | _, _ => all_candidates
    end in
  (* 3: high influence *)
  high_weight_ids ← on_store (query_by_criteria (user_id query)
    {| min_influence_weight := Some 0.7%Q; source_filter := None;
       criteria_time_range := None; criteria_tags := None;
       criteria_limit := Some 15 |});
  let all_candidates := update_candidates all_candidates high_weight_ids in
  (* 4: recent *)
  all_candidates ←
    match time_range query with
    | Some (t0, t1) =>
        recent_ids ← on_store (hot_query_by_time_range (user_id query) t0 t1);
        mret (update_candidates all_candidates recent_ids)
    | None => mret all_candidates
    end;
  ranked_results ← _rank_and_filter_results now all_candidates query;
  mret (slice_to (limit query) ranked_results).

End Engine.

End StorageEngine.

(** ** InterfaceAbstraction/APIs/HiNATAWriteAPI.py *)

Module HiNATAWriteAPI.

Inductive HiNATAWriteOperation : Type :=
| CREATE | UPDATE | DELETE | BATCH_UPDATE | BULK_TAG | BULK_RETAG | MERGE | SPLIT.

(** [HiNATAWriteOperation(s)]: the enum member with value [s]. *)
Definition HiNATAWriteOperation_of (s : string) : outcome HiNATAWriteOperation :=
  if String.eqb s "create" then Ok CREATE
  else if String.eqb s "update" then Ok UPDATE
  else if String.eqb s "delete" then Ok DELETE
  else if String.eqb s "batch_update" then Ok BATCH_UPDATE
  else if String.eqb s "bulk_tag" then Ok BULK_TAG
  else if String.eqb s "bulk_retag" then Ok BULK_RETAG
  else if String.eqb s "merge" then Ok MERGE
  else if String.eqb s "split" then Ok SPLIT
  else Raise (ValueError (s +:+ " is not a valid HiNATAWriteOperation")).

(** [operation_type in [BATCH_UPDATE, BULK_TAG, BULK_RETAG]] *)
Definition is_bulk (operation_type : HiNATAWriteOperation) : bool :=
  match operation_type with
  | BATCH_UPDATE | BULK_TAG | BULK_RETAG => true
  | _ => false
  end.

Record WriteOperationContext : Type := {
  ctx_user_id : string;
  operation_id : string;
  ctx_source_app : string
}.

Record HiNATAWriteModel : Type := {
  wm_id : option string;
  wm_timestamp : option string;
  wm_source : string;
  wm_highlight : string;
  wm_note : string;
  wm_address : string;
  wm_tag : list string;
  wm_access : string;
  wm_raw_data : gmap string value
}.

Record HiNATAUpdateModel : Type := {
  um_id : string;
  updates : gmap string value;
  merge_tags : bool;
  preserve_metadata : bool
}.

Record BulkOperationModel : Type := {
  bulk_operation_type : string;
  target_filter : gmap string value;
  operation_data : gmap string value;
  dry_run : bool;
  batch_size : Z
}.

Record HiNATAWriteRequestModel : Type := {
  user_id : string;
  operation_type : string;
  intent_description : string;
  req_hinata_data : option HiNATAWriteModel;
  update_data : option HiNATAUpdateModel;
  bulk_operation : option BulkOperationModel;
  processing_options : gmap string value;
  validation_strict : bool;
  auto_backup : bool
}.

Record HiNATAWriteResponse : Type := {
  status : string;
  resp_operation_id : string;
  affected_count : Z;
  results : list (gmap string value);
  errors : list string;
  warnings : list string
}.

(** The dict returned by [_handle_bulk_operation]. *)
Record BulkResult : Type := {
  br_dry_run : bool;
  batch_results : list (gmap string value);
  successful_count : Z;
  br_errors : list string
}.

(** The JSONB operator [?]: the string is an element of the array (a
    key of the object, or the string scalar itself). *)
Definition jsonb_has (j : value) (t : string) : bool :=
  match j with
  | VStrs l => bool_decide (t ∈ l)
  | VStr s => String.eqb s t
  | VDict m => bool_decide (is_Some (m !! t))
  | _ => false
  end.

Definition has_key (d : gmap string value) (k : string) : bool :=
  bool_decide (is_Some (d !! k)).

Section WriteAPI.
Context {RT : Runtime} {MD : HiNATAProcessor.Models}.

(** *** WriteOperationValidator *)

Definition _get_required_permission (operation_type : HiNATAWriteOperation) : string :=
  match operation_type with
  | CREATE | UPDATE | MERGE | SPLIT => "hinata_write"
  | DELETE => "hinata_delete"
  | BATCH_UPDATE | BULK_TAG | BULK_RETAG => "hinata_bulk_modify"
  end.

Definition validate_write_permission (user_id : string)
    (operation_type : HiNATAWriteOperation) : io Store bool :=
  s ← get_state;
  mret (match user_permissions s !! user_id with
        | None => false
        | Some permissions =>
            bool_decide (_get_required_permission operation_type ∈ permissions)
        end).

Definition validate_hinata_ownership (user_id : string) (hinata_ids : list string)
    : io Store (bool * list string) :=
  s ← get_state;
  let owned (i : string) : bool :=
    match hinata_data s !! i with
    | Some r => String.eqb (row_user_id r) user_id
    | None => false
    end in
  let unauthorized_ids := filter (fun i => owned i = false) hinata_ids in
  mret (bool_decide (unauthorized_ids = []), unauthorized_ids).

(** [SELECT COUNT( * ) FROM hinata_data WHERE user_id = $1 ...] *)
Definition _estimate_affected_count (filter_conditions : gmap string value)
    (user_id : string) : io Store Z :=
  s ← get_state;
  tag_ok ← lift (match filter_conditions !! "tag" with
                 | Some v => t ← as_str v; Ok (fun r => jsonb_has (row_tags r) t)
                 | None => Ok (fun _ => true)
                 end);
  source_ok ← lift (match filter_conditions !! "source" with
                    | Some v => t ← as_str v; Ok (fun r => String.eqb (row_source r) t)
                    | None => Ok (fun _ => true)
                    end);
  mret (Z.of_nat (length (filter
    (fun r => String.eqb (row_user_id r) user_id && tag_ok r && source_ok r = true)
    (snd <$> map_to_list (hinata_data s))))).

Definition validate_bulk_operation_safety (bulk_op : BulkOperationModel)
    (user_id : string) : io Store (bool * list string) :=
  let e1 := if truthy (VDict (target_filter bulk_op)) then []
            else ["Bulk operation must specify target filter"] in
  let e2 := if bool_decide (batch_size bulk_op > 1000)
            then ["Batch size too large (max 1000)"] else [] in
  estimated_count ← _estimate_affected_count (target_filter bulk_op) user_id;
  let e3 := if bool_decide (estimated_count > 10000)
            then ["Operation would affect too many records"] else [] in
  let errors := e1 ++ e2 ++ e3 in
  mret (bool_decide (errors = []), errors).

(** *** HiNATAWriteProcessor: storage helpers *)

Definition _get_hinata_by_id (hinata_id : string)
    : io Store (option (gmap string value)) :=
  s ← get_state;
  mret (dict_of_row <$> hinata_data s !! hinata_id).

(** The [UPDATE hinata_data SET highlight, note, address, tags,
    access_level, timestamp WHERE id = $1] statement. *)
Definition update_row (highlight note address : string) (tags : value)
    (access : string) (timestamp : Z) (r : data_row) : data_row :=
  {| row_id := row_id r; row_user_id := row_user_id r;
     row_timestamp := timestamp; row_source := row_source r;
     row_highlight := highlight; row_note := note; row_address := address;
     row_tags := tags; row_access_level := access;
     row_enhanced_tags := row_enhanced_tags r;
     row_recommended_highlights := row_recommended_highlights r;
     row_semantic_analysis := row_semantic_analysis r;
     row_quality_score := row_quality_score r;
     row_attention_weight := row_attention_weight r;
     row_psp_influence_weight := row_psp_influence_weight r;
     row_embedding_vector := row_embedding_vector r;
     row_processing_metadata := row_processing_metadata r;
     row_storage_tier := row_storage_tier r;
     row_is_deleted := row_is_deleted r; row_deleted_at := row_deleted_at r |}.

(** Every failure inside the [try] (a missing key, an argument that
    asyncpg refuses for its column) yields [False]. *)
Definition _update_hinata_in_storage (hinata_data : gmap string value)
    : io Store bool :=
  try_except
    (hinata_id ← lift (getitem hinata_data "id" ≫= as_str);
     highlight ← lift (getitem hinata_data "highlight" ≫= as_str);
     note ← lift (getitem hinata_data "note" ≫= as_str);
     address ← lift (getitem hinata_data "address" ≫= as_str);
     tag ← lift (getitem hinata_data "tag" ≫= json_dumps);
     access ← lift (getitem hinata_data "access" ≫= as_str);
     timestamp ← lift (getitem hinata_data "timestamp" ≫= timestamptz_arg);
     _ ← modify (with_hinata_data
            (alter (update_row highlight note address tag access timestamp) hinata_id));
     mret true)
    (fun _ => mret false).

Definition set_deleted (now : Z) (r : data_row) : data_row :=
  {| row_id := row_id r; row_user_id := row_user_id r;
     row_timestamp := row_timestamp r; row_source := row_source r;
     row_highlight := row_highlight r; row_note := row_note r;
     row_address := row_address r; row_tags := row_tags r;
     row_access_level := row_access_level r;
     row_enhanced_tags := row_enhanced_tags r;
     row_recommended_highlights := row_recommended_highlights r;
     row_semantic_analysis := row_semantic_analysis r;
     row_quality_score := row_quality_score r;
     row_attention_weight := row_attention_weight r;
     row_psp_influence_weight := row_psp_influence_weight r;
     row_embedding_vector := row_embedding_vector r;
     row_processing_metadata := row_processing_metadata r;
     row_storage_tier := row_storage_tier r;
     row_is_deleted := true; row_deleted_at := Some now |}.

(** [UPDATE hinata_data SET is_deleted = TRUE, deleted_at = NOW()
    WHERE id = $1] *)
Definition _soft_delete_hinata (now : Z) (hinata_id : string) : io Store bool :=
  _ ← modify (with_hinata_data (alter (set_deleted now) hinata_id));
  mret true.

(** [DELETE FROM hinata_data WHERE id = $1] *)
Definition _hard_delete_hinata (hinata_id : string) : io Store bool :=
  _ ← modify (with_hinata_data (delete hinata_id));
  mret true.

Definition set_tags (tags : value) (r : data_row) : data_row :=
  update_row (row_highlight r) (row_note r) (row_address r) tags
    (row_access_level r) (row_timestamp r) r.

Definition _find_hinatas_by_filter (filter_conditions : gmap string value)
    (user_id : string) : io Store (list (gmap string value)) :=
  s ← get_state;
  tag_ok ← lift (match filter_conditions !! "tag" with
                 | Some v => t ← as_str v; Ok (fun r => jsonb_has (row_tags r) t)
                 | None => Ok (fun _ => true)
                 end);
  source_ok ← lift (match filter_conditions !! "source" with
                    | Some v => t ← as_str v; Ok (fun r => String.eqb (row_source r) t)
                    | None => Ok (fun _ => true)
                    end);
  bounds ← lift (match filter_conditions !! "date_range" with
                 | Some (VDict date_range) =>
                     lo ← match date_range !! "start" with
                          | Some v => t ← timestamptz_arg v; Ok (Some t)
                          | None => Ok None
                          end;
                     hi ← match date_range !! "end" with
                          | Some v => t ← timestamptz_arg v; Ok (Some t)
                          | None => Ok None
                          end;
                     Ok (lo, hi)
                 | Some _ => Raise (TypeError "argument of type is not iterable")
                 | None => Ok (None, None)
                 end);
  let candidates :=
    filter (fun r => String.eqb (row_user_id r) user_id && negb (row_is_deleted r)
                     && tag_ok r && source_ok r = true)
           (snd <$> map_to_list (hinata_data s)) in
  let in_range (r : data_row) : bool :=
    match fst bounds with Some l => bool_decide (l <= row_timestamp r) | None => true end
    && match snd bounds with Some h => bool_decide (row_timestamp r <= h) | None => true end in
  mret (dict_of_row <$> filter (fun r => in_range r = true) candidates).

(** [_create_backup]: all live records of the user, kept for 24 hours. *)
Definition _create_backup (now : Z) (user_id operation_id : string) : io Store unit :=
  let backup_key := "backup:" +:+ user_id +:+ ":" +:+ operation_id in
  s ← get_state;
  let rows := filter (fun r => String.eqb (row_user_id r) user_id
                               && negb (row_is_deleted r) = true)
                     (snd <$> map_to_list (hinata_data s)) in
  setex now backup_key (24 * 3600) (Backup user_id operation_id (isoformat (utc now)) rows).

(** *** HiNATAWriteProcessor: operations *)

Definition dict_of_write_model (hinata_id : string) (now : Z) (m : HiNATAWriteModel)
    : gmap string value :=
  list_to_map
    [("id", VStr hinata_id);
     ("timestamp", VStr (match StorageEngine.opt_truthy (fun t => negb (String.eqb t ""))
                                 (wm_timestamp m) with
                         | Some t => t
                         | None => isoformat (utc now)
                         end));
     ("source", VStr (wm_source m)); ("highlight", VStr (wm_highlight m));
     ("note", VStr (wm_note m)); ("address", VStr (wm_address m));
     ("tag", VStrs (wm_tag m)); ("access", VStr (wm_access m));
     ("raw_data", VDict (wm_raw_data m))].

(** [uuid8] stands for [uuid.uuid4().hex[:8]]. *)
Definition _handle_create_operation (now : Z) (uuid8 : string)
    (request : HiNATAWriteRequestModel) (context : WriteOperationContext)
    : io Store (gmap string value) :=
  match req_hinata_data request with
  | None => raise (ValueError "hinata_data is required for create operation")
  | Some m =>
      let hinata_id :=
        "hinata_" +:+ ctx_user_id context +:+ "_" +:+ pretty now +:+ "_" +:+ uuid8 in
      let hinata_dict := dict_of_write_model hinata_id now m in
      results ← HiNATAProcessor.process_hinata_batch now [hinata_dict]
                  (ctx_user_id context);
      match results with
      | r :: _ =>
          match HiNATAProcessor.status r with
          | HiNATAProcessor.COMPLETED =>
              mret (list_to_map [("success", VBool true);
                                 ("hinata_id", VStr hinata_id);
                                 ("message", VStr "HiNATA created successfully")])
          | _ =>
              mret (list_to_map
                      [("success", VBool false);
                       ("error", match HiNATAProcessor.error_message r with
                                 | Some m => VStr m | None => VNone end)])
          end
      | [] => mret (list_to_map [("success", VBool false);
                                 ("error", VStr "Processing failed")])
      end
  end.

(** The tags denoted by a patch value: [value if isinstance(value,
    list) else [value]]. *)
Definition tags_of_patch (v : value) : outcome (list string) :=
  match v with
  | VStrs l => Ok l
  | VStr s => Ok [s]
  | VNums [] => Ok []
  | _ => Raise (TypeError "tags must be strings")
  end.

(** One iteration of [for field, value in update_data.updates.items()]. *)
Definition apply_update (merge_tags : bool)
    (updated_data : outcome (gmap string value)) (fv : string * value)
    : outcome (gmap string value) :=
  updated_data ← updated_data;
  let '(field, v) := fv in
  if String.eqb field "tag" && merge_tags then
    existing_tags ← as_strs (get updated_data "tag" (VStrs []));
    new_tags ← tags_of_patch v;
    Ok (<["tag" := VStrs (list_of_set (existing_tags ++ new_tags))]> updated_data)
  else Ok (<[field := v]> updated_data).

Definition _handle_update_operation (now : Z)
    (request : HiNATAWriteRequestModel) (context : WriteOperationContext)
    : io Store (gmap string value) :=
  match update_data request with
  | None => raise (ValueError "update_data is required for update operation")
  | Some update_data =>
      '(is_owner, unauthorized) ←
        validate_hinata_ownership (ctx_user_id context) [um_id update_data];
      if negb is_owner
      then raise (HTTPException 403
                    ("No permission to modify HiNATA: " +:+ um_id update_data))
      else
        existing_data ← _get_hinata_by_id (um_id update_data);
        match StorageEngine.opt_truthy (fun d => truthy (VDict d)) existing_data with
        | None => raise (ValueError ("HiNATA not found: " +:+ um_id update_data))
        | Some existing_data =>
            updated_data ← lift (foldl (apply_update (merge_tags update_data))
                                   (Ok existing_data)
                                   (map_to_list (updates update_data)));
            let updated_data := <["timestamp" := VStr (isoformat (utc now))]> updated_data in
            success ← _update_hinata_in_storage updated_data;
            mret (list_to_map
                    [("success", VBool success);
                     ("hinata_id", VStr (um_id update_data));
                     ("updated_fields", VStrs (fst <$> map_to_list (updates update_data)));
                     ("message", VStr (if success then "HiNATA updated successfully"
                                       else "Update failed"))])
        end
  end.

Fixpoint delete_loop (now : Z) (soft_delete : bool) (hinata_ids : list string)
    : io Store Z :=
  match hinata_ids with
  | [] => mret 0
  | hinata_id :: rest =>
      success ← (if soft_delete then _soft_delete_hinata now hinata_id
                 else _hard_delete_hinata hinata_id);
      n ← delete_loop now soft_delete rest;
      mret (if (success : bool) then 1 + n else n)
  end.

Definition _handle_delete_operation (now : Z)
    (request : HiNATAWriteRequestModel) (context : WriteOperationContext)
    : io Store (gmap string value) :=
  hinata_ids ← lift (as_strs (get (processing_options request) "hinata_ids" (VStrs [])));
  let soft_delete := truthy (get (processing_options request) "soft_delete" (VBool true)) in
  match hinata_ids with
  | [] => raise (ValueError "hinata_ids is required for delete operation")
  | _ =>
      '(is_owner, unauthorized) ←
        validate_hinata_ownership (ctx_user_id context) hinata_ids;
      if negb is_owner
      then raise (HTTPException 403 "No permission to delete HiNATA")
      else
        deleted_count ← delete_loop now soft_delete hinata_ids;
        mret (list_to_map
                [("success", VBool (bool_decide (deleted_count > 0)));
                 ("deleted_count", VNum (inject_Z deleted_count));
                 ("total_requested", VNum (inject_Z (Z.of_nat (length hinata_ids))));
                 ("message", VStr ("Deleted " +:+ pretty deleted_count
                                   +:+ " HiNATA records"))])
  end.

(** [_apply_bulk_operation]: any exception becomes a failure result. *)
Definition _apply_bulk_operation (hinata : gmap string value)
    (operation_data : gmap string value) (operation_type : string)
    : io Store (gmap string value) :=
  let failure (e : exn) : io Store (gmap string value) :=
    mret (list_to_map [("success", VBool false);
                       ("hinata_id", get hinata "id" VNone);
                       ("error", VStr (str_of_exn e))]) in
  let hinata_id : io Store string := lift (getitem hinata "id" ≫= as_str) in
  if String.eqb operation_type "bulk_tag" then
    try_except
      (let new_tags := get operation_data "tags" (VStrs []) in
       existing_tags ← lift (as_strs (get hinata "tags" (VStrs [])));
       new_list ← lift (as_strs new_tags);
       let combined_tags := list_of_set (existing_tags ++ new_list) in
       i ← hinata_id;
       _ ← modify (with_hinata_data (alter (set_tags (VStrs combined_tags)) i));
       mret (list_to_map [("success", VBool true); ("hinata_id", VStr i);
                          ("operation", VStr "bulk_tag"); ("added_tags", new_tags)]))
      failure
  else if String.eqb operation_type "bulk_retag" then
    try_except
      (let new_tags := get operation_data "tags" (VStrs []) in
       i ← hinata_id;
       tags ← lift (json_dumps new_tags);
       _ ← modify (with_hinata_data (alter (set_tags tags) i));
       mret (list_to_map [("success", VBool true); ("hinata_id", VStr i);
                          ("operation", VStr "bulk_retag"); ("new_tags", new_tags)]))
      failure
  else
    try_except
      (i ← lift (getitem hinata "id");
       mret (list_to_map [("success", VBool false); ("hinata_id", i);
                          ("error", VStr ("Unsupported bulk operation: "
                                          +:+ operation_type))]))
      failure.

Fixpoint bulk_loop (targets : list (gmap string value)) (bulk_op : BulkOperationModel)
    : io Store (list (gmap string value) * Z) :=
  match targets with
  | [] => mret ([], 0)
  | hinata :: rest =>
      result ← _apply_bulk_operation hinata (operation_data bulk_op)
                 (bulk_operation_type bulk_op);
      '(batch_results, successful_count) ← bulk_loop rest bulk_op;
      mret (result :: batch_results,
            if truthy (get result "success" VNone) then 1 + successful_count
            else successful_count)
  end.

Definition _handle_bulk_operation (request : HiNATAWriteRequestModel)
    (context : WriteOperationContext) : io Store BulkResult :=
  match bulk_operation request with
  | None => raise (ValueError "bulk_operation is required for bulk operations")
  | Some bulk_op =>
      '(is_safe, errors) ←
        validate_bulk_operation_safety bulk_op (ctx_user_id context);
      if negb is_safe
      then raise (ValueError ("Bulk operation safety check failed: "
                              +:+ String.concat ", " errors))
      else
        target_hinatas ← _find_hinatas_by_filter (target_filter bulk_op)
                           (ctx_user_id context);
        if dry_run bulk_op
        then mret {| br_dry_run := true; batch_results := [];
                     successful_count := 0; br_errors := [] |}
        else if bool_decide (batch_size bulk_op = 0)
        then raise (ValueError "range() arg 3 must not be zero")
        else
          (* [range(0, len, batch_size)] is empty for a negative step *)
          let todo := if bool_decide (0 < batch_size bulk_op)
                      then target_hinatas else [] in
          '(batch_results, successful_count) ← bulk_loop todo bulk_op;
          mret {| br_dry_run := false; batch_results := batch_results;
                  successful_count := successful_count; br_errors := [] |}
  end.

Definition error_response (context : WriteOperationContext) (e : exn)
    : HiNATAWriteResponse :=
  {| status := "error"; resp_operation_id := operation_id context;
     affected_count := 0; results := []; errors := [str_of_exn e];
     warnings := [] |}.

Definition process_write_request (now : Z) (uuid8 : string)
    (request : HiNATAWriteRequestModel) (context : WriteOperationContext)
    : io Store HiNATAWriteResponse :=
  try_except
    ((* 1. permission *)
     operation_type ← lift (HiNATAWriteOperation_of (operation_type request));
     has_permission ← validate_write_permission (user_id request) operation_type;
     if negb has_permission
     then raise (HTTPException 403 "Insufficient permissions for this operation")
     else
       (* 2. backup *)
       _ ← (if auto_backup request
            then _create_backup now (user_id request) (operation_id context)
            else mret tt);
       (* 3. operation *)
       '(results, affected_count, errors) ←
         match operation_type with
         | CREATE =>
             result ← _handle_create_operation now uuid8 request context;
             success ← lift (getitem result "success");
             mret ([result], if truthy success then 1 else 0, [])
         | UPDATE =>
             result ← _handle_update_operation now request context;
             success ← lift (getitem result "success");
             mret ([result], if truthy success then 1 else 0, [])
         | DELETE =>
             result ← _handle_delete_operation now request context;
             mret ([result],
                   match get result "deleted_count" (VNum 0) with
                   | VNum q => Qfloor q
                   | _ => 0
                   end, [])
         | BATCH_UPDATE | BULK_TAG | BULK_RETAG =>
             result ← _handle_bulk_operation request context;
             mret (batch_results result, successful_count result, br_errors result)
         | MERGE | SPLIT =>
             raise (ValueError "Unsupported operation type")
         end;
       mret {| status := if bool_decide (affected_count > 0) then "success" else "failed";
               resp_operation_id := operation_id context;
               affected_count := affected_count;
               results := results; errors := errors; warnings := [] |})
    (fun e => mret (error_response context e)).

End WriteAPI.

End HiNATAWriteAPI.

(** ** Security/WritePermissionManager.py *)

Module WritePermissionManager.

Inductive PermissionLevel : Type :=
| NONE | READ_ONLY | WRITE_LIMITED | WRITE_FULL | ADMIN.

Inductive OperationRisk : Type := LOW | MEDIUM | HIGH | CRITICAL.

#[global] Instance PermissionLevel_eq_dec : EqDecision PermissionLevel.
Proof. solve_decision. Defined.
#[global] Instance OperationRisk_eq_dec : EqDecision OperationRisk.
Proof. solve_decision. Defined.

(** The dataclass.  [valid_from] and [valid_until] are annotated [str]
    but hold whatever the constructor was given: a [datetime] when the
    profile is built from a table row, a [str] when it is rebuilt from
    the cache or created as the default. *)
Record UserPermissionProfile : Type := {
  user_id : string;
  permission_level : PermissionLevel;
  allowed_operations : gset string;
  daily_operation_limit : Z;
  batch_size_limit : Z;
  require_2fa : bool;
  valid_from : value;
  valid_until : value;
  allowed_sources : option (gset string);
  forbidden_operations : option (gset string);
  audit_level : string;
  created_by : string
}.

(** An active row of [user_write_permissions]: [valid_from] and
    [valid_until] are TIMESTAMP WITH TIME ZONE columns, the operation
    and source sets are JSONB arrays with default ['[]']. *)
Record permission_row : Type := {
  pr_user_id : string;
  pr_permission_level : PermissionLevel;
  pr_allowed_operations : gset string;
  pr_daily_operation_limit : Z;
  pr_batch_size_limit : Z;
  pr_require_2fa : bool;
  pr_valid_from : Z;
  pr_valid_until : option Z;
  pr_allowed_sources : gset string;
  pr_forbidden_operations : gset string;
  pr_audit_level : string;
  pr_created_by : string
}.

(** State of the permission manager: the Redis cache of profiles
    (["user_permissions:{user_id}"], with expiry; an entry is the
    profile that [UserPermissionProfile(    **json.loads(...))] rebuilds
    from it), the Redis session flags (["2fa_verified:{session_id}"]),
    the active rows of [user_write_permissions] and the
    [(user_id, requested_at)] columns of [operation_audit_logs]. *)
Record PermState : Type := {
  profile_cache : gmap string (UserPermissionProfile * Z);
  session_flags : gmap string string;
  user_write_permissions : gmap string permission_row;
  operation_audit_logs : list (string * Z)
}.

(** *** RiskAssessment *)

#[local] Set Warnings "-inexact-float".

Definition operation_risks : list (string * float) :=
  [("create", 0.1%float); ("update", 0.3%float); ("delete", 0.8%float);
   ("bulk_tag", 0.4%float); ("bulk_retag", 0.5%float); ("batch_update", 0.6%float);
   ("merge", 0.7%float); ("split", 0.6%float)].

(** [operation_risks.get(operation_type, 0.5)] *)
Definition base_risk_of (operation_type : string) : float :=
  default 0.5%float ((list_to_map operation_risks : gmap string float) !! operation_type).

Definition set_truthy (o : option (gset string)) : option (gset string) :=
  match o with
  | Some s => if bool_decide (s = ∅) then None else Some s
  | None => None
  end.

(** [risk_score >= bound] and [min(risk_score, bound)] on floats. *)
Definition fgeb (a b : float) : bool := PrimFloat.leb b a.
Definition fmin (a b : float) : float := if PrimFloat.ltb b a then b else a.

(** [hour] is [datetime.now(timezone.utc).hour]. *)
Definition assess_operation_risk (hour : Z) (operation_type : string)
    (operation_data : gmap string value) (user_profile : UserPermissionProfile)
    : outcome (OperationRisk * float * list string) :=
  (* 1. operation type *)
  let risk_score := (0.0 + base_risk_of operation_type)%float in
  let risk_flags : list string := [] in
  (* 2. batch size *)
  affected_count ← as_num (get operation_data "estimated_affected_count" (VNum 1));
  let '(risk_score, risk_flags) :=
    if Qgtb affected_count 1000
    then ((risk_score + 0.8)%float, risk_flags ++ ["large_batch_operation"])
    else if Qgtb affected_count 100
    then ((risk_score + 0.5)%float, risk_flags ++ ["medium_batch_operation"])
    else if Qgtb affected_count 10
    then ((risk_score + 0.2)%float, risk_flags ++ ["small_batch_operation"])
    else (risk_score, risk_flags) in
  (* 3. deletion *)
  let '(risk_score, risk_flags) :=
    if String.eqb operation_type "delete" then
      let '(risk_score, risk_flags) :=
        if negb (truthy (get operation_data "soft_delete" (VBool true)))
        then ((risk_score + 0.3)%float, risk_flags ++ ["hard_delete"])
        else (risk_score, risk_flags) in
      if Qgtb affected_count 50
      then ((risk_score + 0.4)%float, risk_flags ++ ["bulk_delete"])
      else (risk_score, risk_flags)
    else (risk_score, risk_flags) in
  (* 4. time of day *)
  let '(risk_score, risk_flags) :=
    if bool_decide (hour < 6) || bool_decide (hour > 22)
    then ((risk_score + 0.1)%float, risk_flags ++ ["off_hours_operation"])
    else (risk_score, risk_flags) in
  (* 5. limited user doing bulk work *)
  let '(risk_score, risk_flags) :=
    if bool_decide (permission_level user_profile = WRITE_LIMITED)
       && bool_decide (operation_type ∈ ["batch_update"; "bulk_tag"; "bulk_retag"])
    then ((risk_score + 0.3)%float, risk_flags ++ ["limited_user_bulk_operation"])
    else (risk_score, risk_flags) in
  (* 6. data sources *)
  target_sources ← as_strs (get operation_data "target_sources" (VStrs []));
  let '(risk_score, risk_flags) :=
    match target_sources, set_truthy (allowed_sources user_profile) with
    | _ :: _, Some allowed =>
        if bool_decide (list_to_set target_sources ∖ allowed = (∅ : gset string))
        then (risk_score, risk_flags)
        else ((risk_score + 0.5)%float, risk_flags ++ ["unauthorized_source_access"])
    | _, _ => (risk_score, risk_flags)
    end in
  let risk_level :=
    if fgeb risk_score 1.0 then CRITICAL
    else if fgeb risk_score 0.7 then HIGH
    else if fgeb risk_score 0.4 then MEDIUM
    else LOW in
  Ok (risk_level, fmin risk_score 1.0, risk_flags).

#[local] Set Warnings "inexact-float".

Section Validator.
Context {RT : Runtime}.

(** *** PermissionValidator *)

(** The profile built from a table row: the two validity columns are
    passed on as asyncpg returns them. *)
Definition profile_of_row (row : permission_row) : UserPermissionProfile :=
  {| user_id := pr_user_id row; permission_level := pr_permission_level row;
     allowed_operations := pr_allowed_operations row;
     daily_operation_limit := pr_daily_operation_limit row;
     batch_size_limit := pr_batch_size_limit row;
     require_2fa := pr_require_2fa row;
     valid_from := VDatetime (pr_valid_from row);
     valid_until := match pr_valid_until row with
                    | Some t => VDatetime t | None => VNone end;
     allowed_sources := Some (pr_allowed_sources row);
     forbidden_operations := Some (pr_forbidden_operations row);
     audit_level := pr_audit_level row; created_by := pr_created_by row |}.

(** [json.dumps(..., default=str)] on a field: a [datetime] is written
    as [str(dt)]. *)
Definition json_default_str (v : value) : value :=
  match v with
  | VDatetime t => VStr (str_of_datetime (utc t))
  | _ => v
  end.

(** What [UserPermissionProfile(    **json.loads(json.dumps(cache_data,
    default=str)))] rebuilds from a profile. *)
Definition cached_copy (p : UserPermissionProfile) : UserPermissionProfile :=
  {| user_id := user_id p; permission_level := permission_level p;
     allowed_operations := allowed_operations p;
     daily_operation_limit := daily_operation_limit p;
     batch_size_limit := batch_size_limit p; require_2fa := require_2fa p;
     valid_from := json_default_str (valid_from p);
     valid_until := json_default_str (valid_until p);
     allowed_sources := Some (default ∅ (allowed_sources p));
     forbidden_operations := Some (default ∅ (forbidden_operations p));
     audit_level := audit_level p; created_by := created_by p |}.

(** The [INSERT INTO user_write_permissions] offers
    [default_profile.valid_from], an ISO string, for the TIMESTAMP WITH
    TIME ZONE column [valid_from]. *)
Definition create_default_permission_profile (now : Z) (user : string)
    : io PermState UserPermissionProfile :=
  let default_profile :=
    {| user_id := user; permission_level := WRITE_LIMITED;
       allowed_operations := {["create"; "update"; "bulk_tag"]};
       daily_operation_limit := 100; batch_size_limit := 50;
       require_2fa := false; valid_from := VStr (isoformat (utc now));
       valid_until := VNone;
       allowed_sources := None; forbidden_operations := None;
       audit_level := "standard"; created_by := "system" |} in
  valid_from_arg ← lift (timestamptz_arg (valid_from default_profile));
  _ ← modify (fun s =>
        {| profile_cache := profile_cache s; session_flags := session_flags s;
           user_write_permissions :=
             <[user := {| pr_user_id := user;
                          pr_permission_level := permission_level default_profile;
                          pr_allowed_operations := allowed_operations default_profile;
                          pr_daily_operation_limit := daily_operation_limit default_profile;
                          pr_batch_size_limit := batch_size_limit default_profile;
                          pr_require_2fa := require_2fa default_profile;
                          pr_valid_from := valid_from_arg; pr_valid_until := None;
                          pr_allowed_sources := ∅; pr_forbidden_operations := ∅;
                          pr_audit_level := audit_level default_profile;
                          pr_created_by := created_by default_profile |}]>
               (user_write_permissions s);
           operation_audit_logs := operation_audit_logs s |});
  mret default_profile.

Definition get_user_permission_profile (now : Z) (user : string)
    : io PermState (option UserPermissionProfile) :=
  s ← get_state;
  let cached :=
    match profile_cache s !! user with
    | Some (p, expires) => if bool_decide (now < expires) then Some p else None
    | None => None
    end in
  match cached with
  | Some p => mret (Some p)
  | None =>
      match user_write_permissions s !! user with
      | None => p ← create_default_permission_profile now user; mret (Some p)
      | Some row =>
          let profile := profile_of_row row in
          _ ← modify (fun s =>
                {| profile_cache :=
                     <[user := (cached_copy profile, now + 3600)]> (profile_cache s);
                   session_flags := session_flags s;
                   user_write_permissions := user_write_permissions s;
                   operation_audit_logs := operation_audit_logs s |});
          mret (Some profile)
      end
  end.

(** Rows of the audit log of the user requested on the current day. *)
Definition get_daily_operation_count (now : Z) (user : string) : io PermState Z :=
  s ← get_state;
  mret (Z.of_nat (length (filter
    (fun r => fst r = user ∧ snd r / 86400 = now / 86400) (operation_audit_logs s)))).

Definition verify_2fa_for_operation (user : string) (session_id : option string)
    : io PermState bool :=
  s ← get_state;
  mret (match session_id with
        | Some sid =>
            if String.eqb sid "" then false
            else match session_flags s !! ("2fa_verified:" +:+ sid) with
                 | Some verified => negb (String.eqb verified "")
                 | None => false
                 end
        | None => false
        end).

Definition validate_write_permission (now : Z) (user : string)
    (operation_type : string) (operation_data : gmap string value)
    (session_id : option string) : io PermState (bool * string * list string) :=
  (* 1. profile *)
  user_profile ← get_user_permission_profile now user;
  match user_profile with
  | None => mret (false, "User permission profile not found", [])
  | Some user_profile =>
      (* 2. level *)
      if bool_decide (permission_level user_profile = NONE)
      then mret (false, "No write permissions", [])
      else if bool_decide (permission_level user_profile = READ_ONLY)
      then mret (false, "Read-only access", [])
      (* 3. allowed operations *)
      else if negb (bool_decide (operation_type ∈ allowed_operations user_profile))
      then mret (false, "Operation '" +:+ operation_type +:+ "' not permitted", [])
      (* 4. forbidden operations *)
      else if match set_truthy (forbidden_operations user_profile) with
              | Some f => bool_decide (operation_type ∈ f)
              | None => false
              end
      then mret (false, "Operation '" +:+ operation_type +:+ "' is forbidden", [])
      else
        (* 5. validity period *)
        not_yet ← lift (s ← replace_receiver (valid_from user_profile);
                        valid_from ← parse_utc s;
                        now_before now valid_from);
        if (not_yet : bool)
        then mret (false, "Permissions not yet active", [])
        else
          expired ← lift (if truthy (valid_until user_profile)
                          then s ← replace_receiver (valid_until user_profile);
                               valid_until ← parse_utc s;
                               now_after now valid_until
                          else Ok false);
          if (expired : bool) then mret (false, "Permissions expired", [])
          else
            (* 6. daily limit *)
            daily_count ← get_daily_operation_count now user;
            if bool_decide (daily_count >= daily_operation_limit user_profile)
            then mret (false, "Daily operation limit exceeded", [])
            else
              (* 7. batch size *)
              affected_count ←
                lift (as_num (get operation_data "estimated_affected_count" (VNum 1)));
              if Qgtb affected_count (inject_Z (batch_size_limit user_profile))
              then mret (false, "Batch size limit exceeded", [])
              else
                (* 8. risk *)
                '(risk_level, risk_score, risk_flags) ←
                  lift (assess_operation_risk ((now `mod` 86400) / 3600)
                          operation_type operation_data user_profile);
                (* 9. level required by the risk *)
                if bool_decide (risk_level = CRITICAL)
                   && negb (bool_decide (permission_level user_profile = ADMIN))
                then mret (false, "Admin permissions required for critical operations",
                           risk_flags)
                else if bool_decide (risk_level = HIGH)
                        && negb (bool_decide (permission_level user_profile = WRITE_FULL)
                                 || bool_decide (permission_level user_profile = ADMIN))
                then mret (false,
                           "Full write permissions required for high-risk operations",
                           risk_flags)
                else
                  (* 10. second factor *)
                  if require_2fa user_profile
                     && (bool_decide (risk_level = HIGH) || bool_decide (risk_level = CRITICAL))
                  then
                    verified ← verify_2fa_for_operation user session_id;
                    if negb verified
                    then mret (false, "Two-factor authentication required", risk_flags)
                    else mret (true, "Permission granted", risk_flags)
                  else mret (true, "Permission granted", risk_flags)
  end.

End Validator.

End WritePermissionManager.

(** ** Kernel/Core/PSPEngine.py: the matcher *)

Module PSPEngine.

Inductive PSPComponentType : Type :=
| CORE_INTEREST | CURRENT_GOAL | LEARNING_PREFERENCE
| COMMUNICATION_STYLE | WORK_CONTEXT | PERSONAL_VALUE.

Inductive PSPUpdateAction : Type :=
| CREATE | UPDATE | STRENGTHEN | WEAKEN | MERGE | SPLIT | ARCHIVE.

#[global] Instance PSPComponentType_eq_dec : EqDecision PSPComponentType.
Proof. solve_decision. Defined.
#[global] Instance PSPUpdateAction_eq_dec : EqDecision PSPUpdateAction.
Proof. solve_decision. Defined.

(** The fields of [PSPComponent] and [UserIntent] that matching reads
    or carries along (evidence, timestamps and history are not touched
    by the matcher). *)
Record PSPComponent : Type := {
  id : string;
  component_type : PSPComponentType;
  description : string;
  embedding : list Q;
  confidence : Q;
  total_attention_weight : Q;
  normalized_weight : Q;
  priority : string;
  activation_threshold : Q
}.

Record UserIntent : Type := {
  intent_id : string;
  hinata_id : string;
  intent_description : string;
  intent_embedding : list Q;
  intent_confidence : Q;
  attention_weight : Q;
  intent_type : PSPComponentType;
  source_app : string
}.

(** The four memory layers are dicts from component id to component;
    their iteration order (insertion order) decides between equally
    similar components, so they are association lists. *)
Record PSPContext : Type := {
  user_id : string;
  core_memory : list (string * PSPComponent);
  working_memory : list (string * PSPComponent);
  learning_memory : list (string * PSPComponent);
  context_memory : list (string * PSPComponent)
}.

(** [best_match] of [_find_best_component_match]. *)
Record BestMatch : Type := {
  component : PSPComponent;
  bm_similarity : Q
}.

(** An entry of the list returned by [match_intents_with_psp]. *)
Record MatchInfo : Type := {
  intent : UserIntent;
  psp_component : option PSPComponent;
  similarity : Q;
  action : PSPUpdateAction;
  merge_strength : Q
}.

(** [sklearn.metrics.pairwise.cosine_similarity] on two vectors. *)
Class Similarity : Type := {
  cosine_similarity : list Q → list Q → Q
}.

Record PSPMatcher : Type := {
  similarity_threshold : Q
}.

(** [PSPMatcher()] *)
Definition default_matcher : PSPMatcher := {| similarity_threshold := 0.7%Q |}.

Definition _get_target_memory (intent_type : PSPComponentType) (psp : PSPContext)
    : list (string * PSPComponent) :=
  match intent_type with
  | CORE_INTEREST | PERSONAL_VALUE => core_memory psp
  | CURRENT_GOAL | WORK_CONTEXT => working_memory psp
  | LEARNING_PREFERENCE => learning_memory psp
  | COMMUNICATION_STYLE => context_memory psp
  end.

Definition _determine_update_action (match_info : BestMatch) : PSPUpdateAction :=
  let similarity := bm_similarity match_info in
  if Qgtb similarity 0.9 then STRENGTHEN
  else if Qgtb similarity 0.8 then UPDATE
  else if Qgtb similarity 0.7 then MERGE
  else CREATE.

Definition _calculate_merge_strength (attention_weight : Q) : Q :=
  if Qgtb attention_weight 0.8 then 1.0%Q
  else if Qgtb attention_weight 0.6 then 0.8%Q
  else if Qgtb attention_weight 0.4 then 0.6%Q
  else 0.3%Q.

Section Matcher.
Context {SIM : Similarity} (self : PSPMatcher).

Definition _calculate_similarity (embedding1 embedding2 : list Q) : Q :=
  match embedding1, embedding2 with
  | [], _ | _, [] => 0.0%Q
  | _, _ => py_max 0.0 (cosine_similarity embedding1 embedding2)
  end.

(** The loop of [_find_best_component_match] over the target layer,
    started with [best_match = None] and [best_similarity = 0.0]. *)
Fixpoint best_match_loop (intent_emb : list Q) (layer : list (string * PSPComponent))
    (best_match : option BestMatch) (best_similarity : Q) : option BestMatch :=
  match layer with
  | [] => best_match
  | (component_id, component) :: rest =>
      match embedding component with
      | [] => best_match_loop intent_emb rest best_match best_similarity
      | _ =>
          let similarity := _calculate_similarity intent_emb (embedding component) in
          if Qgtb similarity best_similarity
             && Qgtb similarity (similarity_threshold self)
          then best_match_loop intent_emb rest
                 (Some {| component := component; bm_similarity := similarity |})
                 similarity
          else best_match_loop intent_emb rest best_match best_similarity
      end
  end.

Definition _find_best_component_match (intent : UserIntent) (psp : PSPContext)
    : option BestMatch :=
  match intent_embedding intent with
  | [] => None
  | _ =>
      let target_memory := _get_target_memory (intent_type intent) psp in
      best_match_loop (intent_embedding intent) target_memory None 0.0%Q
  end.

Definition match_intents_with_psp (intents : list UserIntent) (current_psp : PSPContext)
    : list MatchInfo :=
  (fun intent =>
     match _find_best_component_match intent current_psp with
     | Some best_match =>
         {| intent := intent;
            psp_component := Some (component best_match);
            similarity := bm_similarity best_match;
            action := _determine_update_action best_match;
            merge_strength := _calculate_merge_strength (attention_weight intent) |}
     | None =>
         {| intent := intent; psp_component := None; similarity := 0.0%Q;
            action := CREATE; merge_strength := 1.0%Q |}
     end) <$> intents.

End Matcher.

End PSPEngine.

(** * Reference formulas taken from the specification

    These three definitions follow the wording of the specification
    (§3 (I5) and §4.5); they are what the embedded code is compared
    with. *)

Module Spec.

(** [clamp(lo, hi, x)] *)
Definition clamp (lo hi x : Q) : Q := Qmax lo (Qmin hi x).

(** (I5) *)
Definition influence (quality attention : Q) : Q :=
  clamp 0.05 1.0 (0.05 + 0.95 * (0.6 * quality + 0.4 * attention))%Q.

(** [recency = max(0.1, 0.95^age_days)] *)
Definition recency (age_days : Z) : Q := Qmax 0.1 (0.95 ^ age_days)%Q.

(** The fusion formula. *)
Definition relevance (influence attention quality recency source_pref : Q) : Q :=
  (0.30 * influence + 0.25 * attention + 0.20 * quality
   + 0.15 * recency + 0.10 * source_pref)%Q.

(** The default of the per-user source preference lookup. *)
Definition default_source_pref : Q := 0.5%Q.

(** (I3): tags are lowercase, whitespace-trimmed and deduplicated. *)
Definition tags_normalized {RT : Runtime} (tags : list string) : Prop :=
  NoDup tags ∧ Forall (fun t => lower t = t ∧ strip t = t) tags.

End Spec.

(** * Concrete scenarios used by the examples below *)

Module Fixtures.

(** A finite table of [datetime.fromisoformat], [isoformat] and [str]:
    2024-11-01, 2024-12-01 and 2024-12-02 at 10:30 UTC, and 2024-12-01
    at 10:30 without an offset (read as UTC by [.timestamp()]).  The
    [str] methods are the ASCII ones; the examples use ASCII text. *)
Definition t_nov01 : Z := 1730457000.
Definition t_dec01 : Z := 1733049000.
Definition t_dec02 : Z := 1733135400.

Definition iso_nov01 : string := "2024-11-01T10:30:00+00:00".
Definition iso_dec01 : string := "2024-12-01T10:30:00+00:00".
Definition iso_dec02 : string := "2024-12-02T10:30:00+00:00".
Definition str_nov01 : string := "2024-11-01 10:30:00+00:00".
Definition str_dec01 : string := "2024-12-01 10:30:00+00:00".
Definition str_dec02 : string := "2024-12-02 10:30:00+00:00".
Definition naive_dec01 : string := "2024-12-01T10:30:00".

Definition naive (t : Z) : datetime := {| posix := t; utcoffset := None |}.

#[local] Instance runtime : Runtime := {|
  fromisoformat s :=
    if String.eqb s iso_nov01 || String.eqb s str_nov01 then Some (utc t_nov01)
    else if String.eqb s iso_dec01 || String.eqb s str_dec01 then Some (utc t_dec01)
    else if String.eqb s iso_dec02 || String.eqb s str_dec02 then Some (utc t_dec02)
    else if String.eqb s naive_dec01 then Some (naive t_dec01)
    else None;
  isoformat dt :=
    match utcoffset dt with
    | Some 0 =>
        if posix dt =? t_nov01 then iso_nov01
        else if posix dt =? t_dec01 then iso_dec01
        else if posix dt =? t_dec02 then iso_dec02
        else ""
    | Some _ => ""
    | None => if posix dt =? t_dec01 then naive_dec01 else ""
    end;
  str_of_datetime dt :=
    match utcoffset dt with
    | Some 0 =>
        if posix dt =? t_nov01 then str_nov01
        else if posix dt =? t_dec01 then str_dec01
        else if posix dt =? t_dec02 then str_dec02
        else ""
    | _ => ""
    end;
  md5 s := s;
  lower := ascii_lower;
  strip := ascii_strip
|}.

(** A fully scored record observed on 2024-12-01. *)
Definition scored_doc : gmap string value :=
  list_to_map
    [("id", VStr "h1"); ("timestamp", VStr iso_dec01);
     ("source", VStr "browser_extension");
     ("highlight", VStr "Machine learning models require careful validation");
     ("note", VStr "cross-validation"); ("address", VStr "https://example.com/ml");
     ("tag", VStrs ["ml"; "validation"]); ("access", VStr "private");
     ("psp_influence_weight", VNum 1); ("attention_weight", VNum 1);
     ("quality_score", VNum 1)].

Definition some_query : StorageEngine.RetrievalQuery :=
  {| StorageEngine.user_id := "alice"; StorageEngine.query_type := "search";
     StorageEngine.query_text := None; StorageEngine.semantic_vector := None;
     StorageEngine.filters := ∅; StorageEngine.time_range := None;
     StorageEngine.limit := 10; StorageEngine.min_relevance_score := 0%Q |}.

(** Deterministic collaborators: no semantic tags, the note as the only
    highlight, a two-dimensional embedding, quality and attention 0.5. *)
#[local] Instance models : HiNATAProcessor.Models := {|
  HiNATAProcessor.generate_semantic_tags _ := Ok [];
  HiNATAProcessor.extract_recommended_highlights h := Ok [HiNATAProcessor.note h];
  HiNATAProcessor.analyze_semantics _ := Ok ∅;
  HiNATAProcessor.generate_embedding _ := Ok [1%Q; 0%Q];
  HiNATAProcessor.calculate_quality_score _ := Ok 0.5%Q;
  HiNATAProcessor.calculate_attention_weight _ _ _ := Ok (0.5%Q, ∅)
|}.

(** The same collaborators with an embedding model that is down. *)
#[local] Instance models_embedding_down : HiNATAProcessor.Models := {|
  HiNATAProcessor.generate_semantic_tags _ := Ok [];
  HiNATAProcessor.extract_recommended_highlights h := Ok [HiNATAProcessor.note h];
  HiNATAProcessor.analyze_semantics _ := Ok ∅;
  HiNATAProcessor.generate_embedding _ := Raise (RuntimeError "embedding model unavailable");
  HiNATAProcessor.calculate_quality_score _ := Ok 0.5%Q;
  HiNATAProcessor.calculate_attention_weight _ _ _ := Ok (0.5%Q, ∅)
|}.

(** A raw observation as submitted by an application. *)
Definition raw_doc (hinata_id ts : string) (tags : list string) : gmap string value :=
  list_to_map
    [("id", VStr hinata_id); ("timestamp", VStr ts);
     ("source", VStr "browser_extension");
     ("highlight", VStr "Machine learning models require careful validation");
     ("note", VStr "cross-validation"); ("address", VStr "https://example.com/ml");
     ("tag", VStrs tags); ("access", VStr "private")].

(** Engine configuration with both optional indexes disabled (the
    default). *)
Definition config : StorageEngine.Config :=
  {| StorageEngine.cache_ttl := 3600;
     StorageEngine.vector_index := None;
     StorageEngine.fulltext_index := None |}.

Definition empty_engine : StorageEngine.Engine :=
  {| StorageEngine.store := empty_store; StorageEngine.cache := ∅ |}.

(** Alice's record [h1] (influence 1) stored on 2024-12-01: hot tier. *)
Definition engine_with_hot_h1 : StorageEngine.Engine :=
  snd (StorageEngine.store_hinata t_dec01 scored_doc "alice" empty_engine).

(** Rows of [hinata_data] as the database holds them: a month-old
    record [h2] of Alice with influence 0.7, and a record [h9] of
    Bob. *)
Definition h2_row : data_row :=
  {| row_id := "h2"; row_user_id := "alice"; row_timestamp := t_nov01;
     row_source := "browser_extension";
     row_highlight := "Cross-validation estimates generalisation error";
     row_note := "k-fold"; row_address := "https://example.com/cv";
     row_tags := VStrs ["ml"]; row_access_level := "private";
     row_enhanced_tags := VStrs []; row_recommended_highlights := VStrs [];
     row_semantic_analysis := VDict ∅;
     row_quality_score := Some 0.5%Q; row_attention_weight := Some 0.5%Q;
     row_psp_influence_weight := Some 0.7%Q;
     row_embedding_vector := VNums []; row_processing_metadata := VDict ∅;
     row_storage_tier := "warm"; row_is_deleted := false; row_deleted_at := None |}.

Definition h9_row : data_row :=
  {| row_id := "h9"; row_user_id := "bob"; row_timestamp := t_nov01;
     row_source := "notes_app";
     row_highlight := "Quarterly budget figures";
     row_note := "confidential"; row_address := "https://example.com/budget";
     row_tags := VStrs ["finance"]; row_access_level := "private";
     row_enhanced_tags := VStrs []; row_recommended_highlights := VStrs [];
     row_semantic_analysis := VDict ∅;
     row_quality_score := Some 0.5%Q; row_attention_weight := Some 0.5%Q;
     row_psp_influence_weight := Some 0.5%Q;
     row_embedding_vector := VNums []; row_processing_metadata := VDict ∅;
     row_storage_tier := "warm"; row_is_deleted := false; row_deleted_at := None |}.

Definition all_permissions : list string :=
  ["hinata_write"; "hinata_delete"; "hinata_bulk_modify"].

(** The backend on 2024-12-02: Alice's hot record [h1] in Redis, the
    two rows above in [hinata_data], and Alice's write permissions. *)
Definition seeded_store : Store :=
  let s := StorageEngine.store engine_with_hot_h1 in
  {| redis_strings := redis_strings s; redis_zsets := redis_zsets s;
     redis_sets := redis_sets s;
     hinata_data := {["h2" := h2_row; "h9" := h9_row]};
     hinata_index := hinata_index s;
     user_permissions := {["alice" := all_permissions]};
     cold_data := cold_data s; cold_index := cold_index s |}.

Definition seeded_engine : StorageEngine.Engine :=
  {| StorageEngine.store := seeded_store; StorageEngine.cache := ∅ |}.

Definition context_of (user op_id : string) : HiNATAWriteAPI.WriteOperationContext :=
  {| HiNATAWriteAPI.ctx_user_id := user; HiNATAWriteAPI.operation_id := op_id;
     HiNATAWriteAPI.ctx_source_app := "conversational_interface" |}.

Definition request_of (user op : string)
    (upd : option HiNATAWriteAPI.HiNATAUpdateModel)
    (bulk : option HiNATAWriteAPI.BulkOperationModel)
    (options : gmap string value) (backup : bool)
    : HiNATAWriteAPI.HiNATAWriteRequestModel :=
  {| HiNATAWriteAPI.user_id := user; HiNATAWriteAPI.operation_type := op;
     HiNATAWriteAPI.intent_description := "";
     HiNATAWriteAPI.req_hinata_data := None;
     HiNATAWriteAPI.update_data := upd;
     HiNATAWriteAPI.bulk_operation := bulk;
     HiNATAWriteAPI.processing_options := options;
     HiNATAWriteAPI.validation_strict := true;
     HiNATAWriteAPI.auto_backup := backup |}.

(** Soft deletion of [h2] requested by its owner. *)
Definition soft_delete_h2 : HiNATAWriteAPI.HiNATAWriteRequestModel :=
  request_of "alice" "delete" None None
    (list_to_map [("hinata_ids", VStrs ["h2"]); ("soft_delete", VBool true)]) false.

Definition after_soft_delete_h2 : outcome HiNATAWriteAPI.HiNATAWriteResponse * Store :=
  HiNATAWriteAPI.process_write_request (RT := runtime) (MD := models) t_dec02 "0a1b2c3d"
    soft_delete_h2 (context_of "alice" "delete_1") seeded_store.

Definition engine_after_soft_delete_h2 : StorageEngine.Engine :=
  {| StorageEngine.store := snd after_soft_delete_h2; StorageEngine.cache := ∅ |}.

(** *** Ingestion scenarios *)

(** One fresh, valid observation, ingested while the embedding model is
    down. *)
Definition ingest_with_embedding_down
    : outcome (list HiNATAProcessor.ProcessingResult) * Store :=
  HiNATAProcessor.process_hinata_batch (RT := runtime) (MD := models_embedding_down)
    t_dec01 [raw_doc "h3" iso_dec01 ["ml"]] "alice" empty_store.

(** An observation whose tags differ only by case and surrounding
    blanks. *)
Definition doc_with_duplicate_tags : gmap string value :=
  raw_doc "h4" iso_dec01 ["ML"; " ml "].

(** *** Write scenarios *)

(** Bulk tagging of Alice's records tagged ["ml"] with a tag that is
    neither lowercase nor trimmed. *)
Definition bulk_tag_python (batch : Z) (backup : bool)
    : HiNATAWriteAPI.HiNATAWriteRequestModel :=
  request_of "alice" "bulk_tag" None
    (Some {| HiNATAWriteAPI.bulk_operation_type := "bulk_tag";
             HiNATAWriteAPI.target_filter := {["tag" := VStr "ml"]};
             HiNATAWriteAPI.operation_data := {["tags" := VStrs [" Python"]]};
             HiNATAWriteAPI.dry_run := false;
             HiNATAWriteAPI.batch_size := batch |})
    ∅ backup.

Definition after_bulk_tag_python : outcome HiNATAWriteAPI.HiNATAWriteResponse * Store :=
  HiNATAWriteAPI.process_write_request (RT := runtime) (MD := models) t_dec02 "0a1b2c3d"
    (bulk_tag_python 100 false) (context_of "alice" "bulk_1") seeded_store.

(** The same request with a batch size above the hard cap, and the
    default [auto_backup = True]. *)
Definition after_oversized_bulk : outcome HiNATAWriteAPI.HiNATAWriteResponse * Store :=
  HiNATAWriteAPI.process_write_request (RT := runtime) (MD := models) t_dec02 "0a1b2c3d"
    (bulk_tag_python 1001 true) (context_of "alice" "bulk_2") seeded_store.

(** Alice updates the note of her record [h2]; the patch names every
    key that the UPDATE statement reads and the row does not have. *)
Definition update_h2_note : HiNATAWriteAPI.HiNATAWriteRequestModel :=
  request_of "alice" "update"
    (Some {| HiNATAWriteAPI.um_id := "h2";
             HiNATAWriteAPI.updates :=
               list_to_map [("note", VStr "k-fold, stratified"); ("tag", VStrs ["ml"]);
                            ("access", VStr "private")];
             HiNATAWriteAPI.merge_tags := true;
             HiNATAWriteAPI.preserve_metadata := true |})
    None ∅ false.

Definition after_update_h2_note
    : outcome HiNATAWriteAPI.HiNATAWriteResponse * Store :=
  HiNATAWriteAPI.process_write_request (RT := runtime) (MD := models) t_dec02 "0a1b2c3d"
    update_h2_note (context_of "alice" "write_1") seeded_store.

(** *** Authorization scenarios *)

(** The row of the operator ["root"] in [user_write_permissions]. *)
Definition admin_row (needs_2fa : bool) : WritePermissionManager.permission_row :=
  {| WritePermissionManager.pr_user_id := "root";
     WritePermissionManager.pr_permission_level := WritePermissionManager.ADMIN;
     WritePermissionManager.pr_allowed_operations := {["delete"; "update"]};
     WritePermissionManager.pr_daily_operation_limit := 100;
     WritePermissionManager.pr_batch_size_limit := 50;
     WritePermissionManager.pr_require_2fa := needs_2fa;
     WritePermissionManager.pr_valid_from := t_nov01;
     WritePermissionManager.pr_valid_until := None;
     WritePermissionManager.pr_allowed_sources := ∅;
     WritePermissionManager.pr_forbidden_operations := ∅;
     WritePermissionManager.pr_audit_level := "standard";
     WritePermissionManager.pr_created_by := "system" |}.

(** The permission tables with the single operator ["root"] and an
    empty profile cache; [flags] are the session flags held in Redis. *)
Definition perm_state (needs_2fa : bool) (flags : gmap string string)
    : WritePermissionManager.PermState :=
  {| WritePermissionManager.profile_cache := ∅;
     WritePermissionManager.session_flags := flags;
     WritePermissionManager.user_write_permissions := {["root" := admin_row needs_2fa]};
     WritePermissionManager.operation_audit_logs := [] |}.

(** A hard delete of one record. *)
Definition hard_delete_data : gmap string value :=
  list_to_map [("estimated_affected_count", VNum 1); ("soft_delete", VBool false)].

(** The operator's first request of the hour, at 10:30 on 2024-12-02:
    the profile is read from the table and written to the cache. *)
Definition first_hard_delete (needs_2fa : bool) (flags : gmap string string)
    (session_id : option string)
    : outcome (bool * string * list string) * WritePermissionManager.PermState :=
  WritePermissionManager.validate_write_permission (RT := runtime) t_dec02 "root"
    "delete" hard_delete_data session_id (perm_state needs_2fa flags).

(** The state in which the operator's next request finds the manager. *)
Definition perm_state_cached (needs_2fa : bool) (flags : gmap string string)
    : WritePermissionManager.PermState :=
  snd (first_hard_delete needs_2fa flags None).

(** *** Profile matching scenarios *)

(** Cosine similarity on vectors of unit length: their dot product. *)
Fixpoint dot (u v : list Q) : Q :=
  match u, v with
  | x :: u', y :: v' => (x * y + dot u' v')%Q
  | _, _ => 0%Q
  end.

#[local] Instance unit_cosine : PSPEngine.Similarity := {|
  PSPEngine.cosine_similarity := dot
|}.

Definition goal_component : PSPEngine.PSPComponent :=
  {| PSPEngine.id := "psp_comp_1"; PSPEngine.component_type := PSPEngine.CURRENT_GOAL;
     PSPEngine.description := "Persistent goal related to: https://example.com/ml";
     PSPEngine.embedding := [1%Q; 0%Q]; PSPEngine.confidence := 0.4%Q;
     PSPEngine.total_attention_weight := 0.5%Q;
     PSPEngine.normalized_weight := 1%Q; PSPEngine.priority := "high";
     PSPEngine.activation_threshold := 0.5%Q |}.

Definition psp_with_goal : PSPEngine.PSPContext :=
  {| PSPEngine.user_id := "alice"; PSPEngine.core_memory := [];
     PSPEngine.working_memory := [("psp_comp_1", goal_component)];
     PSPEngine.learning_memory := []; PSPEngine.context_memory := [] |}.

Definition work_intent : PSPEngine.UserIntent :=
  {| PSPEngine.intent_id := "intent_h1_work"; PSPEngine.hinata_id := "h1";
     PSPEngine.intent_description := "Work-related activity: project deadline";
     PSPEngine.intent_embedding := [1%Q; 0%Q]; PSPEngine.intent_confidence := 0.7%Q;
     PSPEngine.attention_weight := 0.5%Q;
     PSPEngine.intent_type := PSPEngine.WORK_CONTEXT;
     PSPEngine.source_app := "browser_extension" |}.

End Fixtures.

(** * Properties *)

(** ** Arithmetic helpers *)

Lemma Qgtb_true (a b : Q) : Qgtb a b = true ↔ (b < a)%Q.
Proof.
  unfold Qgtb. rewrite negb_true_iff, <- not_true_iff_false, Qle_bool_iff.
  split; [apply Qnot_le_lt | apply Qlt_not_le].
Qed.

Lemma Qgtb_false (a b : Q) : Qgtb a b = false ↔ (a <= b)%Q.
Proof. unfold Qgtb. rewrite negb_false_iff. apply Qle_bool_iff. Qed.

Lemma Qltb_true (a b : Q) : Qltb a b = true ↔ (a < b)%Q.
Proof. apply Qgtb_true. Qed.

Lemma Qltb_false (a b : Q) : Qltb a b = false ↔ (b <= a)%Q.
Proof. apply Qgtb_false. Qed.

Lemma py_max_Qmax (a b : Q) : (py_max a b == Qmax a b)%Q.
Proof.
  unfold py_max. destruct (Qgtb b a) eqn:E.
  - apply Qgtb_true in E. symmetry. apply Q.max_r. lra.
  - apply Qgtb_false in E. symmetry. apply Q.max_l. lra.
Qed.

Lemma py_min_Qmin (a b : Q) : (py_min a b == Qmin a b)%Q.
Proof.
  unfold py_min. destruct (Qltb b a) eqn:E.
  - apply Qltb_true in E. symmetry. apply Q.min_r. lra.
  - apply Qltb_false in E. symmetry. apply Q.min_l. lra.
Qed.

(** The decay factor stays in (0, 1] for records that are not from the
    future. *)
Lemma decay_bounds (d : Z) : 0 <= d → (0 < 0.95 ^ d <= 1)%Q.
Proof.
  intros Hd. split.
  - apply Qpower_0_lt. reflexivity.
  - assert (E : (0.95 == / (20 # 19))%Q) by reflexivity.
    rewrite E, Qinv_power.
    assert (H1 : (1 <= (20 # 19) ^ d)%Q).
    { apply Qpower_1_le; [discriminate | exact Hd]. }
    assert (H0 : (0 < (20 # 19) ^ d)%Q) by (apply Qpower_0_lt; reflexivity).
    apply Qle_shift_inv_r; [exact H0 | lra].
Qed.

Lemma one_le_DBL_MAX : (1 <= StorageEngine.DBL_MAX)%Q.
Proof. apply Qle_bool_iff. vm_compute. reflexivity. Qed.

(** ** Outcomes *)

Lemma ok_or_eq {A} (a0 : A) (c : outcome A) : is_ok c = true → c = Ok (ok_or a0 c).
Proof. destruct c; [reflexivity | discriminate]. Qed.

Lemma outcome_ok_with {A} (c : outcome A) (P : A → Prop) :
  match c with Ok a => P a | Raise _ => False end → ∃ a, c = Ok a ∧ P a.
Proof. destruct c as [a | e]; [eauto | contradiction]. Qed.

Lemma run_ok {S A} (c : io S A) (s : S) (a : A) :
  fst (c s) = Ok a → c s = (Ok a, snd (c s)).
Proof. destruct (c s) as [r s1]. cbn. intros ->. reflexivity. Qed.

(** ** Inversion of the monadic binds *)

Lemma outcome_bind_ok {A B} (c : outcome A) (k : A → outcome B) (b : B) :
  c ≫= k = Ok b → ∃ a, c = Ok a ∧ k a = Ok b.
Proof. destruct c as [a | e]; [eauto | discriminate]. Qed.

Lemma io_bind_ok {S A B} (c : io S A) (k : A → io S B) (s s' : S) (b : B) :
  (c ≫= k) s = (Ok b, s') → ∃ a s1, c s = (Ok a, s1) ∧ k a s1 = (Ok b, s').
Proof.
  unfold mbind, io_bind. destruct (c s) as [[a | e] s1]; [eauto | discriminate].
Qed.

Lemma lift_ok {S A} (c : outcome A) (s s1 : S) (a : A) :
  lift c s = (Ok a, s1) → c = Ok a ∧ s1 = s.
Proof. unfold lift. intros [= -> ->]. split; reflexivity. Qed.

(** ** [list(set(l))] *)

Lemma elem_of_list_of_set (l : list string) (x : string) :
  x ∈ list_of_set l ↔ x ∈ l.
Proof.
  induction l as [| y l IH]; [reflexivity |].
  cbn [list_of_set]. rewrite !elem_of_cons, list_elem_of_filter, IH.
  destruct (decide (x = y)); tauto.
Qed.

Lemma NoDup_list_of_set (l : list string) : NoDup (list_of_set l).
Proof.
  induction l as [| y l IH]; [constructor |].
  cbn [list_of_set]. constructor.
  - rewrite list_elem_of_filter. tauto.
  - apply NoDup_filter. exact IH.
Qed.

Lemma try_except_ok {S A} (c : io S A) (h : exn → io S A) (s s' : S) (a : A) :
  try_except c h s = (Ok a, s') →
  c s = (Ok a, s') ∨ ∃ e s1, c s = (Raise e, s1) ∧ h e s1 = (Ok a, s').
Proof.
  unfold try_except. destruct (c s) as [[a' | e] s1]; [left | right; eauto].
  assumption.
Qed.

(** ** The stable sort *)

Lemma insert_by_perm {A} (before : A → A → bool) (x : A) (l : list A) :
  insert_by before x l ≡ₚ x :: l.
Proof.
  induction l as [| y l IH]; [reflexivity |].
  cbn [insert_by]. destruct (before x y); [reflexivity |].
  rewrite IH. apply Permutation_swap.
Qed.

Lemma sort_by_perm {A} (before : A → A → bool) (l : list A) :
  sort_by before l ≡ₚ l.
Proof.
  induction l as [| x l IH]; [reflexivity |].
  cbn [sort_by]. rewrite insert_by_perm, IH. reflexivity.
Qed.

Lemma insert_by_sorted {A} (before : A → A → bool) (x : A) (l : list A) :
  (∀ a b, before a b = false → before b a = true) →
  (∀ a b c, before a b = true → before b c = true → before a c = true) →
  StronglySorted (fun a b => before a b = true) l →
  StronglySorted (fun a b => before a b = true) (insert_by before x l).
Proof.
  intros Htotal Htrans. induction 1 as [| y l Hl IH Hy]; cbn [insert_by].
  - repeat constructor.
  - destruct (before x y) eqn:E.
    + constructor; [constructor; assumption |].
      constructor; [exact E |].
      eapply Forall_impl; [exact Hy |]. intros z Hz. eapply Htrans; eassumption.
    + constructor; [exact IH |].
      rewrite insert_by_perm. constructor; [apply Htotal; exact E | exact Hy].
Qed.

Lemma sort_by_sorted {A} (before : A → A → bool) (l : list A) :
  (∀ a b, before a b = false → before b a = true) →
  (∀ a b c, before a b = true → before b c = true → before a c = true) →
  StronglySorted (fun a b => before a b = true) (sort_by before l).
Proof.
  intros Htotal Htrans. induction l as [| x l IH]; cbn [sort_by].
  - constructor.
  - apply insert_by_sorted; assumption.
Qed.

Lemma StronglySorted_take {A} (R : A → A → Prop) (n : nat) (l : list A) :
  StronglySorted R l → StronglySorted R (take n l).
Proof.
  intros Hs. revert n. induction Hs as [| x l Hl IH Hx]; intros [| n]; cbn;
    try constructor.
  - apply IH.
  - apply Forall_take. exact Hx.
Qed.

Lemma Qgeb_true (a b : Q) : Qgeb a b = true ↔ (b <= a)%Q.
Proof. unfold Qgeb. apply Qle_bool_iff. Qed.

Lemma Qgeb_false (a b : Q) : Qgeb a b = false ↔ (a < b)%Q.
Proof.
  unfold Qgeb. rewrite <- not_true_iff_false, Qle_bool_iff.
  split; [apply Qnot_le_lt | apply Qlt_not_le].
Qed.

(** ** Redis index updates *)

Lemma for_each_zadd_frame {A} (l : list A) (key : A → string) (member : string)
    (score : Q) (s : Store) :
  ∃ s1, for_each l (fun x => zadd (key x) member score) s = (Ok tt, s1)
        ∧ redis_strings s1 = redis_strings s ∧ hinata_data s1 = hinata_data s
        ∧ hinata_index s1 = hinata_index s
        ∧ cold_data s1 = cold_data s ∧ cold_index s1 = cold_index s.
Proof.
  revert s. induction l as [| x l IH]; intros s.
  - exists s. repeat split; reflexivity.
  - cbn [for_each]. unfold mbind, io_bind. cbn [zadd modify].
    destruct (IH (with_redis_zsets
                    (λ z, <[key x := <[member := score]> (default ∅ (z !! key x))]> z) s))
      as (s1 & E & H1 & H2 & H3 & H4 & H5).
    exists s1. rewrite E. repeat split; assumption.
Qed.

Lemma truthy_dict_with_key (d : gmap string value) (k : string) (v : value) :
  d !! k = Some v → truthy (VDict d) = true.
Proof.
  intros Hk. cbn [truthy]. destruct (map_to_list d) as [| p l] eqn:E; [| reflexivity].
  apply map_to_list_empty_iff in E. subst d. rewrite lookup_empty in Hk. discriminate.
Qed.

(** ** Ingestion: the influence weight *)

Module IngestionProps.
Import HiNATAProcessor.








End IngestionProps.

(** ** Retrieval: the fusion formula *)

Module RankingProps.
Import StorageEngine.

(** The power [0.95 ** days] is a finite double for every record dated
    less than ten years (3650 days) ahead, in particular for every
    record that is not from the future. *)
Lemma decay_is_finite (d : Z) : -3650 <= d → (0.95 ^ d <= DBL_MAX)%Q.
Proof.
  intros Hd.
  assert (E : (0.95 == / (20 # 19))%Q) by reflexivity.
  rewrite E, Qinv_power, <- Qpower_opp.
  apply Qle_trans with ((20 # 19) ^ 3650)%Q.
  - apply Qpower_le_compat_l; [lia | discriminate].
  - apply Qle_bool_iff. vm_compute. reflexivity.
Qed.

Lemma recency_of_aware_timestamp {RT : Runtime} (now : Z) (ts : string)
    (created : datetime) :
  fromisoformat (replace "Z" "+00:00" ts) = Some created →
  is_Some (utcoffset created) →
  (0.95 ^ days_between now (posix created) <= DBL_MAX)%Q →
  (_calculate_recency_score now (VStr ts)
     == Spec.recency (days_between now (posix created)))%Q.
Proof.
  intros Hp [off Hoff] Hfin. unfold _calculate_recency_score.
  cbn [replace_receiver mbind outcome_bind]. unfold parse_utc. rewrite Hp.
  cbn [mbind outcome_bind]. unfold days_since. rewrite Hoff.
  assert (Hg : Qgtb (0.95 ^ days_between now (posix created)) DBL_MAX = false).
  { apply Qgtb_false. exact Hfin. }
  rewrite Hg, py_max_Qmax. unfold Spec.recency.
  apply Q.max_compat; [reflexivity | lra].
Qed.

(** Every timestamp that is not an offset-aware ISO string scores 0.5:
    a [datetime] (a row of the relational tier), a string without UTC
    offset, a string that does not parse. *)
Lemma recency_of_unreadable_timestamp {RT : Runtime} (now : Z) (timestamp : value) :
  (∀ ts created, timestamp = VStr ts →
     fromisoformat (replace "Z" "+00:00" ts) = Some created →
     utcoffset created = None) →
  (_calculate_recency_score now timestamp == 0.5)%Q.
Proof.
  intros Hbad. unfold _calculate_recency_score.
  destruct timestamp as [| | | ts | | | |]; try reflexivity.
  cbn [replace_receiver mbind outcome_bind]. unfold parse_utc.
  destruct (fromisoformat (replace "Z" "+00:00" ts)) as [created |] eqn:Hp;
    [| reflexivity].
  cbn [mbind outcome_bind]. unfold days_since.
  rewrite (Hbad ts created eq_refl Hp). reflexivity.
Qed.

(** C8 (amended). For a candidate whose scores are numbers (a missing
    score counts as 0) and whose timestamp is an ISO string with a UTC
    offset, the relevance is
    0.30·influence + 0.25·attention + 0.20·quality + 0.15·recency + 0.10
    with recency = max(0.1, 0.95^age_days), provided the power is a
    finite double (lemma [decay_is_finite]: any record dated less than
    ten years ahead):
    the source-preference term is the constant 0.10, that is, the
    formula of the specification at source_pref = 1 for every user and
    source. *)
Theorem relevance_score_fusion_formula {RT : Runtime} (now : Z)
    (hinata_data : gmap string value) (query : RetrievalQuery)
    (w a q : Q) (ts : string) (created : datetime) :
  get hinata_data "psp_influence_weight" (VNum 0) = VNum w →
  get hinata_data "attention_weight" (VNum 0) = VNum a →
  get hinata_data "quality_score" (VNum 0) = VNum q →
  hinata_data !! "timestamp" = Some (VStr ts) →
  fromisoformat (replace "Z" "+00:00" ts) = Some created →
  is_Some (utcoffset created) →
  (0.95 ^ days_between now (posix created) <= DBL_MAX)%Q →
  ∃ r, _calculate_relevance_score now hinata_data query = Ok r
       ∧ (r == Spec.relevance w a q
                 (Spec.recency (days_between now (posix created))) 1)%Q.
Proof.
  intros Hw Ha Hq Hts Hp Haware Hfin.
  unfold _calculate_relevance_score. rewrite Hw, Ha, Hq. simpl.
  eexists; split; [reflexivity |].
  assert (Ht : get hinata_data "timestamp" (VStr "") = VStr ts).
  { unfold get. rewrite Hts. reflexivity. }
  rewrite Ht, (recency_of_aware_timestamp now ts created Hp Haware Hfin).
  unfold Spec.relevance. lra.
Qed.

Lemma relevance_score_fusion_formula_witness :
  ∃ r, _calculate_relevance_score (RT := Fixtures.runtime) Fixtures.t_dec02
         Fixtures.scored_doc Fixtures.some_query = Ok r
       ∧ (r == Spec.relevance 1 1 1
                 (Spec.recency (days_between Fixtures.t_dec02
                                  (posix (utc Fixtures.t_dec01)))) 1)%Q.
Proof.
  apply (relevance_score_fusion_formula (RT := Fixtures.runtime) Fixtures.t_dec02
           Fixtures.scored_doc Fixtures.some_query 1 1 1 Fixtures.iso_dec01
           (utc Fixtures.t_dec01)); try reflexivity.
  - eexists. reflexivity.
  - apply Qle_bool_iff. vm_compute. reflexivity.
Defined.

(** C8 as stated fails.  With the default source preference 0.5 the
    formula of the specification gives 0.95 for a fresh record whose
    three scores are 1, while the code returns 1.  And a record read
    from the relational tier carries a [datetime], for which the code
    takes recency 0.5 instead of max(0.1, 0.95^31): its relevance is
    0.61, which the formula gives for neither source preference. *)
Lemma relevance_formula_of_the_specification_refuted :
  (∃ r, _calculate_relevance_score (RT := Fixtures.runtime) Fixtures.t_dec01
          Fixtures.scored_doc Fixtures.some_query = Ok r
        ∧ ¬ (r == Spec.relevance 1 1 1 (Spec.recency 0) Spec.default_source_pref)%Q)
  ∧ days_between Fixtures.t_dec02 (row_timestamp Fixtures.h2_row) = 31
  ∧ (∃ r, _calculate_relevance_score (RT := Fixtures.runtime) Fixtures.t_dec02
            (dict_of_row Fixtures.h2_row) Fixtures.some_query = Ok r
          ∧ (r == 0.61)%Q
          ∧ ¬ (r == Spec.relevance 0.7 0.5 0.5 (Spec.recency 31)
                      Spec.default_source_pref)%Q
          ∧ ¬ (r == Spec.relevance 0.7 0.5 0.5 (Spec.recency 31) 1)%Q).
Proof.
  split; [| split].
  - eexists. split; [vm_compute; reflexivity |].
    intros E. vm_compute in E. discriminate E.
  - reflexivity.
  - eexists. split; [vm_compute; reflexivity |].
    split; [reflexivity |].
    split; intros E; vm_compute in E; discriminate E.
Qed.

End RankingProps.

(** ** Tiered store: ownership and soft deletion *)

Module StoreProps.
Import StorageEngine.

(** A document found in the hot tier is returned whoever asks for it:
    the hot (and warm) lookups are keyed by the record id alone. *)
Lemma hot_hit_for_any_user (cfg : Config) (now : Z)
    (hinata_id user : string) (e : Engine) (d : gmap string value) (expires : Z) :
  cache e !! (user +:+ ":" +:+ hinata_id) = None →
  redis_strings (store e) !! ("hinata:full:" +:+ hinata_id) = Some (Gzip d, expires) →
  now < expires →
  found (Some d) = true →
  fst (retrieve_hinata cfg now hinata_id user e) = Ok (Some d).
Proof.
  intros Hc Hr Hlt Hf.
  unfold retrieve_hinata, mbind, io_bind, get_state. simpl. rewrite Hc.
  unfold probe_tiers, on_store, hot_get_hinata, redis_get, mbind, io_bind,
    get_state, mret, io_ret. simpl.
  rewrite Hr, bool_decide_eq_true_2 by exact Hlt. simpl.
  assert (Hf' := Hf). simpl in Hf'.
  rewrite Hf', Hf. simpl. rewrite Hf'. reflexivity.
Qed.

(** What the hot tier holds after [store_hinata] has returned: the
    compressed copy of the document under the key of its id. *)
Lemma hot_store_ok {RT : Runtime} (now : Z) (d : gmap string value) (user : string)
    (s s' : Store) :
  hot_store_hinata now d user s = (Ok tt, s') →
  ∃ i, d !! "id" = Some (VStr i)
       ∧ redis_strings s'
         = <["hinata:full:" +:+ i := (Gzip d, now + 7 * 24 * 3600)]> (redis_strings s)
       ∧ hinata_data s' = hinata_data s ∧ hinata_index s' = hinata_index s
       ∧ cold_data s' = cold_data s ∧ cold_index s' = cold_index s.
Proof.
  unfold hot_store_hinata. intros H.
  apply io_bind_ok in H as (i & s0 & Hi & H). apply lift_ok in Hi as [Hi ->].
  apply io_bind_ok in H as (js & s0 & Hjs & H). apply lift_ok in Hjs as [Hjs ->].
  apply io_bind_ok in H as ([] & s1 & H1 & H). injection H1 as <-.
  apply io_bind_ok in H as (w & s0 & Hw & H). apply lift_ok in Hw as [Hw ->].
  apply io_bind_ok in H as ([] & s2 & H2 & H). injection H2 as <-.
  apply io_bind_ok in H as (tags & s0 & Ht & H). apply lift_ok in Ht as [Ht ->].
  apply io_bind_ok in H as ([] & s3 & H3 & H).
  match type of H3 with
  | for_each ?l (fun x => zadd (@?key x) ?m ?sc) ?st = _ =>
      destruct (for_each_zadd_frame l key m sc st) as (sz & E & Z1 & Z2 & Z3 & Z4 & Z5)
  end.
  cbv beta in E. rewrite E in H3. injection H3 as <-.
  apply io_bind_ok in H as (ts & s0 & Hts & H). apply lift_ok in Hts as [Hts ->].
  apply io_bind_ok in H as ([] & s4 & H4 & H). injection H4 as <-.
  apply io_bind_ok in H as (src & s0 & Hsrc & H). apply lift_ok in Hsrc as [Hsrc ->].
  injection H as <-.
  apply outcome_bind_ok in Hi as (v & Hv & Hi).
  unfold getitem in Hv. destruct (d !! "id") as [v' |] eqn:Hid; [| discriminate].
  injection Hv as ->. destruct v; try discriminate.
  injection Hi as ->.
  exists i. split; [reflexivity |]. cbn. rewrite Z1, Z2, Z3, Z4, Z5. cbn.
  repeat split; reflexivity.
Qed.

Lemma store_hinata_in_hot_tier {RT : Runtime} (now : Z) (d : gmap string value)
    (user : string) (e : Engine) :
  _determine_storage_tier now d = Ok HOT →
  store_hinata now d user e = on_store (hot_store_hinata now d user) e.
Proof.
  intros Ht. unfold store_hinata, mbind, io_bind, lift. rewrite Ht. reflexivity.
Qed.

(** C1 (failing input). Alice stores record [h1]; it is placed in the
    hot tier.  Bob then asks for [h1] and receives Alice's record,
    whereas the claim requires NotFound. *)
Theorem retrieve_hinata_serves_another_users_record :
  fst (store_hinata (RT := Fixtures.runtime) Fixtures.t_dec01
         Fixtures.scored_doc "alice" Fixtures.empty_engine) = Ok tt
  ∧ fst (retrieve_hinata Fixtures.config Fixtures.t_dec01
           "h1" "bob" Fixtures.engine_with_hot_h1) = Ok (Some Fixtures.scored_doc).
Proof.
  split; [vm_compute; reflexivity |].
  assert (Hs : hot_store_hinata (RT := Fixtures.runtime) Fixtures.t_dec01
                 Fixtures.scored_doc "alice" empty_store
               = (Ok tt, store Fixtures.engine_with_hot_h1)).
  { unfold Fixtures.engine_with_hot_h1.
    rewrite store_hinata_in_hot_tier by (vm_compute; reflexivity).
    unfold on_store. cbn [store Fixtures.empty_engine].
    destruct (hot_store_hinata Fixtures.t_dec01 Fixtures.scored_doc "alice" empty_store)
      as [r s1] eqn:E.
    cbn [snd store]. f_equal.
    change r with (fst (r, s1)). rewrite <- E. vm_compute. reflexivity. }
  destruct (hot_store_ok _ _ _ _ _ Hs) as (i & Hi & Hr & _).
  assert (i = "h1") as ->.
  { assert (Hid : Fixtures.scored_doc !! "id" = Some (VStr "h1"))
      by (vm_compute; reflexivity).
    congruence. }
  apply hot_hit_for_any_user with (expires := Fixtures.t_dec01 + 7 * 24 * 3600).
  - vm_compute. reflexivity.
  - rewrite Hr. apply lookup_insert_eq.
  - reflexivity.
  - vm_compute. reflexivity.
Qed.

(** A row of the relational tier is returned by id when neither the
    cache nor the hot tier holds the record: the lookup
    [SELECT * FROM hinata_data WHERE id = $1] names neither the user
    nor the deletion mark. *)
Lemma warm_hit_for_any_user (cfg : Config) (now : Z)
    (hinata_id user : string) (e : Engine) (r : data_row) :
  cache e !! (user +:+ ":" +:+ hinata_id) = None →
  redis_strings (store e) !! ("hinata:full:" +:+ hinata_id) = None →
  hinata_data (store e) !! hinata_id = Some r →
  fst (retrieve_hinata cfg now hinata_id user e) = Ok (Some (dict_of_row r)).
Proof.
  intros Hc Hr Hrow.
  assert (Hf : found (Some (dict_of_row r)) = true).
  { apply (truthy_dict_with_key _ "id" (VStr (row_id r))). reflexivity. }
  unfold retrieve_hinata, mbind, io_bind, get_state. cbn [fst snd]. rewrite Hc.
  unfold probe_tiers, on_store, hot_get_hinata, warm_get_hinata, redis_get,
    mbind, io_bind, get_state, mret, io_ret.
  cbn [store fst snd]. rewrite Hr. cbn [found store fst snd]. rewrite Hrow.
  cbn [fmap option_fmap option_map]. rewrite Hf. cbn [modify fst snd]. rewrite Hf.
  reflexivity.
Qed.

(** Soft deletion only marks the row: it stays in the table. *)
Lemma soft_deleted_row_is_kept (now : Z) (hinata_id : string) (s : Store) :
  hinata_data (snd (HiNATAWriteAPI._soft_delete_hinata now hinata_id s)) !! hinata_id
  = HiNATAWriteAPI.set_deleted now <$> hinata_data s !! hinata_id.
Proof.
  unfold HiNATAWriteAPI._soft_delete_hinata, mbind, io_bind, modify. simpl.
  rewrite lookup_alter. case_decide; [reflexivity | congruence].
Qed.

(** C2 (failing input). The row [h2] of Alice is soft-deleted through
    the write API: the operation succeeds and the row is kept with its
    deletion mark.  Get by id on an engine with an empty cache still
    returns the record, deletion mark included, whereas the claim
    requires NotFound. *)
Theorem soft_deleted_record_is_still_served :
  (∃ resp, fst Fixtures.after_soft_delete_h2 = Ok resp
           ∧ HiNATAWriteAPI.status resp = "success"
           ∧ HiNATAWriteAPI.affected_count resp = 1)
  ∧ (∃ r, hinata_data (snd Fixtures.after_soft_delete_h2) !! "h2" = Some r
          ∧ row_user_id r = "alice" ∧ row_is_deleted r = true
          ∧ row_deleted_at r = Some Fixtures.t_dec02)
  ∧ (∃ d, fst (retrieve_hinata Fixtures.config
                 Fixtures.t_dec02 "h2" "alice" Fixtures.engine_after_soft_delete_h2)
          = Ok (Some d)
          ∧ d !! "id" = Some (VStr "h2") ∧ d !! "user_id" = Some (VStr "alice")
          ∧ d !! "is_deleted" = Some (VBool true)).
Proof.
  assert (Hrow : hinata_data (snd Fixtures.after_soft_delete_h2) !! "h2"
                 = Some (HiNATAWriteAPI.set_deleted Fixtures.t_dec02 Fixtures.h2_row))
    by (vm_compute; reflexivity).
  split; [| split].
  - eexists. split; [vm_compute; reflexivity |]. split; reflexivity.
  - eexists. split; [exact Hrow |]. repeat split; reflexivity.
  - exists (dict_of_row (HiNATAWriteAPI.set_deleted Fixtures.t_dec02 Fixtures.h2_row)).
    split; [| repeat split; vm_compute; reflexivity].
    apply warm_hit_for_any_user.
    + vm_compute. reflexivity.
    + vm_compute. reflexivity.
    + exact Hrow.
Qed.

End StoreProps.

(** ** Ingestion pipeline: failures and tag normalisation *)

Module PipelineProps.
Import HiNATAProcessor.

(** A batch call always returns: every failure of a record is turned
    into a [FAILED] result. *)
Lemma process_hinata_batch_returns {RT : Runtime} {MD : Models} (now : Z)
    (hinata_batch : list (gmap string value)) (user : string) (s : Store) :
  ∃ results s', process_hinata_batch now hinata_batch user s = (Ok results, s').
Proof.
  revert s. induction hinata_batch as [| d rest IH]; intros s.
  - eexists _, _. reflexivity.
  - cbn [process_hinata_batch]. unfold mbind, io_bind, try_except.
    destruct (_process_single_hinata now d user s) as [[r | e] s1].
    + destruct (IH s1) as (rs & s2 & E). rewrite E. eexists _, _. reflexivity.
    + cbn. destruct (IH s1) as (rs & s2 & E). rewrite E. eexists _, _. reflexivity.
Qed.

(** The pipeline has no handler around enrichment and scoring: an
    exception there leaves [_process_single_hinata] before anything is
    stored. *)
Lemma enrichment_failure_aborts_record {RT : Runtime} {MD : Models} (now : Z)
    (d standardized : gmap string value) (errors : list string) (h : HiNATAData)
    (e : exn) (user : string) (s : Store) :
  validate d = Ok (true, errors) →
  standardize d = Ok standardized →
  HiNATAData_of_dict standardized = Ok h →
  enhance_hinata h = Raise e
  ∨ (∃ enhanced, enhance_hinata h = Ok enhanced
                 ∧ calculate_quality_score enhanced = Raise e) →
  _process_single_hinata now d user s = (Raise e, s).
Proof.
  intros Hv Hs Hd He. unfold _process_single_hinata.
  unfold mbind, io_bind, lift. rewrite Hv. cbn. rewrite Hs, Hd.
  destruct He as [He | (enhanced & He & Hq)].
  - rewrite He. reflexivity.
  - rewrite He, Hq. reflexivity.
Qed.

(** C7 (amended). When an enrichment stage (semantic tags, highlights,
    semantic summary, embedding or quality score) raises for a valid
    record of a batch, that record is rejected: its result is [FAILED]
    with the error message, the store is left exactly as it was before
    the record, and the remaining records of the batch are processed
    from that unchanged store. *)
Theorem enrichment_failure_rejects_record {RT : Runtime} {MD : Models} (now : Z)
    (d standardized : gmap string value) (errors : list string) (h : HiNATAData)
    (e : exn) (rest : list (gmap string value)) (user : string) (s : Store) :
  validate d = Ok (true, errors) →
  standardize d = Ok standardized →
  HiNATAData_of_dict standardized = Ok h →
  enhance_hinata h = Raise e
  ∨ (∃ enhanced, enhance_hinata h = Ok enhanced
                 ∧ calculate_quality_score enhanced = Raise e) →
  ∃ results s',
    process_hinata_batch now rest user s = (Ok results, s')
    ∧ process_hinata_batch now (d :: rest) user s
      = (Ok ({| status := FAILED;
                hinata_id := get d "id" (VStr "unknown");
                error_message := Some (str_of_exn e);
                enhancements_applied := None |} :: results), s').
Proof.
  intros Hv Hs Hd He.
  destruct (process_hinata_batch_returns now rest user s) as (rs & s' & E).
  exists rs, s'. split; [exact E |].
  cbn [process_hinata_batch]. unfold mbind at 1, io_bind at 1, try_except.
  rewrite (enrichment_failure_aborts_record now d standardized errors h e user s
             Hv Hs Hd He).
  cbn. unfold mbind, io_bind. rewrite E. reflexivity.
Qed.

Lemma enrichment_failure_rejects_record_witness :
  ∃ results s',
    process_hinata_batch (RT := Fixtures.runtime) (MD := Fixtures.models_embedding_down)
      Fixtures.t_dec01 [] "alice" empty_store = (Ok results, s')
    ∧ process_hinata_batch (RT := Fixtures.runtime) (MD := Fixtures.models_embedding_down)
        Fixtures.t_dec01 [Fixtures.raw_doc "h3" Fixtures.iso_dec01 ["ml"]]
        "alice" empty_store
      = (Ok ({| status := FAILED;
                hinata_id := get (Fixtures.raw_doc "h3" Fixtures.iso_dec01 ["ml"])
                               "id" (VStr "unknown");
                error_message :=
                  Some (str_of_exn (RuntimeError "embedding model unavailable"));
                enhancements_applied := None |} :: results), s').
Proof.
  eapply (enrichment_failure_rejects_record (RT := Fixtures.runtime)
            (MD := Fixtures.models_embedding_down) Fixtures.t_dec01
            (Fixtures.raw_doc "h3" Fixtures.iso_dec01 ["ml"])
            (ok_or ∅ (standardize (RT := Fixtures.runtime)
                        (Fixtures.raw_doc "h3" Fixtures.iso_dec01 ["ml"])))).
  - vm_compute. reflexivity.
  - apply ok_or_eq. vm_compute. reflexivity.
  - vm_compute. reflexivity.
  - left. vm_compute. reflexivity.
Defined.

(** C7 as stated fails: with the embedding stage down, a valid record
    is answered with [FAILED] and the store stays empty, so the record
    is not stored and carries no [processing_metadata]. *)
Lemma enrichment_failure_is_not_best_effort :
  (∃ r, fst Fixtures.ingest_with_embedding_down = Ok [r]
        ∧ status r = FAILED
        ∧ error_message r = Some "embedding model unavailable")
  ∧ snd Fixtures.ingest_with_embedding_down = empty_store.
Proof.
  split.
  - exists {| status := FAILED; hinata_id := VStr "h3";
              error_message := Some "embedding model unavailable";
              enhancements_applied := None |}.
    split; [vm_compute; reflexivity |]. split; reflexivity.
  - vm_compute. reflexivity.
Qed.

(** C5 (failing inputs). Normalisation lowercases and trims the tags
    but does not deduplicate them: the valid record tagged
    ["ML"; " ml "] is standardised to the tags ["ml"; "ml"].  BulkTag
    deduplicates but stores the new tag as given: adding " Python" to
    the stored record tagged ["ml"] is acknowledged with "success" and
    stores ["ml"; " Python"].  Neither list satisfies (I3). *)
Theorem stored_tags_violate_I3 :
  (validate (RT := Fixtures.runtime) Fixtures.doc_with_duplicate_tags = Ok (true, [])
   ∧ (∃ sd, standardize (RT := Fixtures.runtime) Fixtures.doc_with_duplicate_tags = Ok sd
            ∧ sd !! "tag" = Some (VStrs ["ml"; "ml"]))
   ∧ ¬ Spec.tags_normalized (RT := Fixtures.runtime) ["ml"; "ml"])
  ∧ ((∃ resp, fst Fixtures.after_bulk_tag_python = Ok resp
              ∧ HiNATAWriteAPI.status resp = "success"
              ∧ HiNATAWriteAPI.affected_count resp = 1)
     ∧ (∃ before after,
          hinata_data Fixtures.seeded_store !! "h2" = Some before
          ∧ row_tags before = VStrs ["ml"]
          ∧ hinata_data (snd Fixtures.after_bulk_tag_python) !! "h2" = Some after
          ∧ row_tags after = VStrs ["ml"; " Python"])
     ∧ ¬ Spec.tags_normalized (RT := Fixtures.runtime) ["ml"; " Python"]).
Proof.
  split; split; [| split | | split].
  - vm_compute. reflexivity.
  - apply outcome_ok_with. vm_compute. reflexivity.
  - intros [Hnd _]. apply NoDup_cons in Hnd as [Hin _].
    apply Hin. left.
  - apply outcome_ok_with. vm_compute. split; reflexivity.
  - exists Fixtures.h2_row,
      (HiNATAWriteAPI.set_tags (VStrs ["ml"; " Python"]) Fixtures.h2_row).
    split; [vm_compute; reflexivity |]. split; [reflexivity |].
    split; [vm_compute; reflexivity |]. reflexivity.
  - intros [_ Hall]. apply Forall_cons in Hall as [_ Hall].
    apply Forall_cons in Hall as [[Hlow _] _].
    vm_compute in Hlow. discriminate Hlow.
Qed.

End PipelineProps.

(** ** Governed writes: bulk limits and single-record update *)

Module WriteProps.
Import HiNATAWriteAPI.

(** Estimating the number of affected records only reads. *)
Lemma estimate_reads_only (f : gmap string value) (user : string) (s : Store) :
  snd (_estimate_affected_count f user s) = s.
Proof.
  unfold _estimate_affected_count, mbind, io_bind, get_state, lift. cbn.
  destruct (f !! "tag") as [v|]; [destruct (as_str v); cbn |];
  (destruct (f !! "source") as [v'|]; [destruct (as_str v'); cbn |]); reflexivity.
Qed.

Lemma estimate_ignores_redis (f : gmap string value) (user : string)
    (g : gmap string (redis_string * Z) → gmap string (redis_string * Z)) (s : Store) :
  fst (_estimate_affected_count f user (with_redis_strings g s))
  = fst (_estimate_affected_count f user s).
Proof.
  unfold _estimate_affected_count, mbind, io_bind, get_state, lift. cbn.
  destruct (f !! "tag") as [v|]; [destruct (as_str v); cbn |];
  (destruct (f !! "source") as [v'|]; [destruct (as_str v'); cbn |]); reflexivity.
Qed.

(** The safety check raises before any target is looked up. *)
Lemma oversized_bulk_is_refused
    (request : HiNATAWriteRequestModel) (context : WriteOperationContext)
    (b : BulkOperationModel) (s : Store) :
  bulk_operation request = Some b →
  batch_size b > 1000
  ∨ (∃ n, fst (_estimate_affected_count (target_filter b) (ctx_user_id context) s) = Ok n
          ∧ n > 10000) →
  ∃ e, _handle_bulk_operation request context s = (Raise e, s).
Proof.
  intros Hb Hbig. unfold _handle_bulk_operation. rewrite Hb.
  unfold validate_bulk_operation_safety, mbind, io_bind.
  pose proof (estimate_reads_only (target_filter b) (ctx_user_id context) s) as Hs.
  destruct (_estimate_affected_count (target_filter b) (ctx_user_id context) s)
    as [[n | e] s1] eqn:E; cbn in Hs; subst s1.
  - cbn -[truthy].
    match goal with |- context [bool_decide (?l = [])] =>
      assert (Hne : bool_decide (l = []) = false) end.
    { apply bool_decide_eq_false_2. intros Heq.
      apply app_eq_nil in Heq as [_ Heq]. apply app_eq_nil in Heq as [H2 H3].
      destruct Hbig as [Hbig | (m & Hm & Hbig)].
      - rewrite bool_decide_eq_true_2 in H2 by exact Hbig. discriminate.
      - cbn in Hm. injection Hm as ->.
        rewrite bool_decide_eq_true_2 in H3 by exact Hbig. discriminate. }
    rewrite Hne. cbn. eexists. reflexivity.
  - eexists. reflexivity.
Qed.

(** The snapshot is one Redis string, written under the key of the
    operation; nothing else is touched. *)
Lemma backup_frame {RT : Runtime} (now : Z) (user op_id : string) (s : Store) :
  ∃ sb, _create_backup now user op_id s = (Ok tt, sb)
        ∧ sb = with_redis_strings
                 (insert ("backup:" +:+ user +:+ ":" +:+ op_id)
                    (Backup user op_id (isoformat (utc now))
                       (filter (fun r => String.eqb (row_user_id r) user
                                         && negb (row_is_deleted r) = true)
                               (snd <$> map_to_list (hinata_data s))),
                     now + 24 * 3600)) s.
Proof.
  unfold _create_backup, mbind, io_bind, get_state, setex, modify.
  eexists. split; reflexivity.
Qed.

(** C4 (amended). A bulk operation whose batch size exceeds the hard
    cap 1000, or whose estimated match count exceeds 10000, is answered
    with status "error" and affected count 0, and no stored record is
    changed in any tier: the record table, the index table, the cold
    files, the Redis indexes and every Redis string other than the
    backup key of this operation (in particular every hot record
    [hinata:full:...]) are what they were.  A backup snapshot is not
    created when the request has [auto_backup = False]; then the whole
    backend is unchanged. *)
Theorem oversized_bulk_request_changes_no_record {RT : Runtime}
    {MD : HiNATAProcessor.Models} (now : Z) (uuid8 : string)
    (request : HiNATAWriteRequestModel) (context : WriteOperationContext)
    (op : HiNATAWriteOperation) (b : BulkOperationModel) (s : Store) :
  HiNATAWriteOperation_of (operation_type request) = Ok op →
  is_bulk op = true →
  bulk_operation request = Some b →
  batch_size b > 1000
  ∨ (∃ n, fst (_estimate_affected_count (target_filter b) (ctx_user_id context) s) = Ok n
          ∧ n > 10000) →
  ∃ resp s',
    process_write_request now uuid8 request context s = (Ok resp, s')
    ∧ status resp = "error" ∧ affected_count resp = 0 ∧ results resp = []
    ∧ hinata_data s' = hinata_data s ∧ hinata_index s' = hinata_index s
    ∧ cold_data s' = cold_data s ∧ cold_index s' = cold_index s
    ∧ redis_zsets s' = redis_zsets s ∧ redis_sets s' = redis_sets s
    ∧ user_permissions s' = user_permissions s
    ∧ (∀ key, key ≠ "backup:" +:+ user_id request +:+ ":" +:+ operation_id context →
              redis_strings s' !! key = redis_strings s !! key)
    ∧ (∀ hinata_id, redis_strings s' !! ("hinata:full:" +:+ hinata_id)
                    = redis_strings s !! ("hinata:full:" +:+ hinata_id))
    ∧ (auto_backup request = false → s' = s).
Proof.
  intros Hop Hbulk Hb Hbig.
  unfold process_write_request, try_except.
  unfold mbind at 1, io_bind at 1, lift at 1. rewrite Hop.
  unfold mbind at 1, io_bind at 1.
  unfold validate_write_permission at 1, mbind at 1, io_bind at 1, get_state at 1.
  cbn [mret io_ret].
  destruct (match user_permissions s !! user_id request with
            | Some permissions =>
                bool_decide (_get_required_permission op ∈ permissions)
            | None => false
            end) eqn:Hperm; cbn [negb].
  2: { cbn. eexists _, _. repeat split; reflexivity. }
  unfold mbind at 1, io_bind at 1.
  set (sb := snd ((if auto_backup request
                   then _create_backup now (user_id request) (operation_id context)
                   else mret ()) s)).
  assert (Hsb : (if auto_backup request
                 then _create_backup now (user_id request) (operation_id context)
                 else mret ()) s = (Ok (), sb)).
  { subst sb. destruct (auto_backup request); reflexivity. }
  rewrite Hsb.
  assert (Hframe : hinata_data sb = hinata_data s ∧ hinata_index sb = hinata_index s
                   ∧ cold_data sb = cold_data s ∧ cold_index sb = cold_index s
                   ∧ redis_zsets sb = redis_zsets s ∧ redis_sets sb = redis_sets s
                   ∧ user_permissions sb = user_permissions s
                   ∧ (∀ key, key ≠ "backup:" +:+ user_id request +:+ ":"
                                   +:+ operation_id context →
                             redis_strings sb !! key = redis_strings s !! key)
                   ∧ (auto_backup request = false → sb = s)
                   ∧ fst (_estimate_affected_count (target_filter b) (ctx_user_id context) sb)
                     = fst (_estimate_affected_count (target_filter b) (ctx_user_id context) s)).
  { subst sb. destruct (auto_backup request).
    - destruct (backup_frame now (user_id request) (operation_id context) s)
        as (sb & -> & ->).
      cbn [snd]. repeat split; try reflexivity; try discriminate.
      + intros key Hkey. cbn [redis_strings with_redis_strings].
        apply lookup_insert_ne. congruence.
      + apply estimate_ignores_redis.
    - cbn. repeat split; reflexivity. }
  destruct Hframe as (F1 & F2 & F3 & F4 & F5 & F6 & F7 & F8 & F9 & F10).
  assert (Hbig' : batch_size b > 1000
     ∨ (∃ n, fst (_estimate_affected_count (target_filter b) (ctx_user_id context) sb) = Ok n
             ∧ n > 10000)).
  { destruct Hbig as [? | (n & Hn & ?)]; [left; assumption | right].
    exists n. rewrite F10. split; assumption. }
  destruct (oversized_bulk_is_refused request context b sb Hb Hbig') as [e He].
  assert (Hhot : ∀ hinata_id, redis_strings sb !! ("hinata:full:" +:+ hinata_id)
                              = redis_strings s !! ("hinata:full:" +:+ hinata_id)).
  { intros hinata_id. apply F8. cbn. discriminate. }
  unfold mbind at 1, io_bind at 1.
  destruct op; try discriminate Hbulk;
    unfold mbind at 1, io_bind at 1; rewrite He; cbn;
    eexists _, _; repeat split; eauto.
Qed.

Lemma oversized_bulk_request_changes_no_record_witness :
  ∃ resp s',
    process_write_request (RT := Fixtures.runtime) (MD := Fixtures.models)
      Fixtures.t_dec02 "0a1b2c3d" (Fixtures.bulk_tag_python 1001 true)
      (Fixtures.context_of "alice" "bulk_3") Fixtures.seeded_store = (Ok resp, s')
    ∧ status resp = "error" ∧ affected_count resp = 0 ∧ results resp = []
    ∧ hinata_data s' = hinata_data Fixtures.seeded_store
    ∧ hinata_index s' = hinata_index Fixtures.seeded_store
    ∧ cold_data s' = cold_data Fixtures.seeded_store
    ∧ cold_index s' = cold_index Fixtures.seeded_store
    ∧ redis_zsets s' = redis_zsets Fixtures.seeded_store
    ∧ redis_sets s' = redis_sets Fixtures.seeded_store
    ∧ user_permissions s' = user_permissions Fixtures.seeded_store
    ∧ (∀ key, key ≠ "backup:" +:+ user_id (Fixtures.bulk_tag_python 1001 true) +:+ ":"
                    +:+ operation_id (Fixtures.context_of "alice" "bulk_3") →
              redis_strings s' !! key = redis_strings Fixtures.seeded_store !! key)
    ∧ (∀ hinata_id, redis_strings s' !! ("hinata:full:" +:+ hinata_id)
                    = redis_strings Fixtures.seeded_store !! ("hinata:full:" +:+ hinata_id))
    ∧ (auto_backup (Fixtures.bulk_tag_python 1001 true) = false
       → s' = Fixtures.seeded_store).
Proof.
  eapply (oversized_bulk_request_changes_no_record (RT := Fixtures.runtime)
            (MD := Fixtures.models) Fixtures.t_dec02 "0a1b2c3d"
            (Fixtures.bulk_tag_python 1001 true)
            (Fixtures.context_of "alice" "bulk_3") BULK_TAG).
  - reflexivity.
  - reflexivity.
  - reflexivity.
  - left. reflexivity.
Defined.

(** C4 as stated fails: with the default [auto_backup = True] the
    snapshot is taken before the safety check, so the refused request
    leaves a backup of Alice's records in Redis. *)
Lemma oversized_bulk_request_still_creates_backup :
  (∃ resp, fst Fixtures.after_oversized_bulk = Ok resp ∧ status resp = "error")
  ∧ redis_strings Fixtures.seeded_store !! "backup:alice:bulk_2" = None
  ∧ (∃ rows, redis_strings (snd Fixtures.after_oversized_bulk) !! "backup:alice:bulk_2"
             = Some (Backup "alice" "bulk_2" Fixtures.iso_dec02 rows,
                     Fixtures.t_dec02 + 24 * 3600)
             ∧ row_id <$> rows = ["h2"]).
Proof.
  split; [| split].
  - apply outcome_ok_with. vm_compute. reflexivity.
  - vm_compute. reflexivity.
  - exists [Fixtures.h2_row]. split; [vm_compute; reflexivity | reflexivity].
Qed.

(** [_update_hinata_in_storage] offers [hinata_data['timestamp']] for
    the TIMESTAMP WITH TIME ZONE column: with a [str] there the
    statement is not sent, the [except] answers [False] and the store
    is what it was. *)
Lemma update_with_str_timestamp_fails (d : gmap string value) (ts : string) (s : Store) :
  d !! "timestamp" = Some (VStr ts) →
  _update_hinata_in_storage d s = (Ok false, s).
Proof.
  intros Hts. unfold _update_hinata_in_storage, try_except.
  repeat (unfold mbind at 1, io_bind at 1, lift at 1;
          match goal with
          | |- context [getitem d ?k ≫= ?f] =>
              destruct (getitem d k ≫= f) as [? | ?] eqn:?; [| reflexivity]
          | |- context [getitem d ?k] =>
              destruct (getitem d k) as [? | ?] eqn:?; [| reflexivity]
          end).
  match goal with
  | H : getitem d "timestamp" ≫= timestamptz_arg = Ok _ |- _ =>
      unfold getitem in H; rewrite Hts in H; discriminate H
  end.
Qed.

(** A single-record update never reports success and never changes the
    store: [_handle_update_operation] sets the timestamp of the updated
    document to an ISO string, which [_update_hinata_in_storage] cannot
    pass to the database. *)
Lemma single_record_update_never_succeeds {RT : Runtime} (now : Z)
    (request : HiNATAWriteRequestModel) (context : WriteOperationContext)
    (s s' : Store) (res : gmap string value) :
  _handle_update_operation now request context s = (Ok res, s') →
  res !! "success" = Some (VBool false) ∧ s' = s.
Proof.
  unfold _handle_update_operation. intros Hrun.
  destruct (update_data request) as [upd |]; [| discriminate Hrun].
  unfold mbind at 1, io_bind at 1 in Hrun.
  unfold validate_hinata_ownership at 1, mbind at 1, io_bind at 1, get_state at 1 in Hrun.
  cbn [mret io_ret] in Hrun.
  match type of Hrun with
  | (if negb ?c then _ else _) _ = _ => destruct c; [| discriminate Hrun]
  end.
  cbn [negb] in Hrun.
  unfold mbind at 1, io_bind at 1 in Hrun.
  unfold _get_hinata_by_id at 1, mbind at 1, io_bind at 1, get_state at 1 in Hrun.
  cbn [mret io_ret] in Hrun.
  destruct (StorageEngine.opt_truthy _ _) as [existing |]; [| discriminate Hrun].
  unfold mbind at 1, io_bind at 1, lift at 1 in Hrun.
  destruct (foldl _ _ _) as [d | e]; [| discriminate Hrun].
  unfold mbind at 1, io_bind at 1 in Hrun.
  rewrite (update_with_str_timestamp_fails _ (isoformat (utc now))) in Hrun
    by apply lookup_insert_eq.
  injection Hrun as <- <-. split; reflexivity.
Qed.

End WriteProps.

(** ** Authorization of critical operations *)

Module AuthProps.
Import WritePermissionManager.

(** A delete with [soft_delete] false starts at 0.8 + 0.3, so its
    assessed risk is always critical and flagged [hard_delete]. *)
Lemma hard_delete_is_critical (hour : Z) (operation_data : gmap string value)
    (profile : UserPermissionProfile) (risk_level : OperationRisk) (risk_score : float)
    (risk_flags : list string) :
  truthy (get operation_data "soft_delete" (VBool true)) = false →
  assess_operation_risk hour "delete" operation_data profile
    = Ok (risk_level, risk_score, risk_flags) →
  risk_level = CRITICAL ∧ "hard_delete" ∈ risk_flags.
Proof.
  intros Hsoft Hrisk. unfold assess_operation_risk in Hrisk.
  rewrite Hsoft in Hrisk.
  change (String.eqb "delete" "delete") with true in Hrisk.
  change (bool_decide ("delete" ∈ ["batch_update"; "bulk_tag"; "bulk_retag"]))
    with false in Hrisk.
  rewrite andb_false_r in Hrisk.
  destruct (as_num (get operation_data "estimated_affected_count" (VNum 1)))
    as [n | e]; [| discriminate Hrisk].
  destruct (as_strs (get operation_data "target_sources" (VStrs [])))
    as [src | e]; [| cbn in Hrisk; repeat case_match; discriminate Hrisk].
  cbn -[Qgtb fgeb fmin set_truthy PrimFloat.add base_risk_of] in Hrisk.
  destruct src as [| src0 src]; destruct (set_truthy (allowed_sources profile));
  repeat match type of Hrisk with
         | context [if ?c then _ else _] =>
             lazymatch c with
             | fgeb _ _ => fail
             | PrimFloat.ltb _ _ => fail
             | _ => destruct c
             end
         end;
  vm_compute in Hrisk; injection Hrisk as <- <- <-;
  (split; [reflexivity | set_solver]).
Qed.

(** C3 (amended). An operation whose assessed risk is critical (every
    delete with soft=false is one) is authorized only if the operator's
    permission level is admin and, when the operator's profile has
    [require_2fa] set, a valid 2FA verification is present on the
    session.  The second factor is demanded by the profile, not by the
    risk level alone. *)
Theorem critical_operation_needs_admin_and_demanded_2fa {RT : Runtime}
    (now : Z) (user operation_type : string) (operation_data : gmap string value)
    (session_id : option string) (s s1 s' : PermState)
    (profile : UserPermissionProfile) (risk_score : float)
    (risk_flags flags : list string) (reason : string) :
  get_user_permission_profile now user s = (Ok (Some profile), s1) →
  assess_operation_risk ((now `mod` 86400) / 3600) operation_type operation_data profile
    = Ok (CRITICAL, risk_score, risk_flags) →
  validate_write_permission now user operation_type operation_data session_id s
    = (Ok (true, reason, flags), s') →
  permission_level profile = ADMIN
  ∧ (require_2fa profile = true
     → fst (verify_2fa_for_operation user session_id s1) = Ok true).
Proof.
  intros Hprof Hrisk Hval.
  unfold validate_write_permission in Hval.
  unfold mbind at 1, io_bind at 1 in Hval. rewrite Hprof in Hval.
  repeat match type of Hval with
         | (if ?c then _ else _) _ = _ => destruct c eqn:?; [discriminate Hval |]
         end.
  unfold mbind at 1, io_bind at 1, lift at 1 in Hval.
  match type of Hval with
  | match ?x with Ok _ => _ | Raise _ => _ end = _ =>
      destruct x as [[|] | e0]; [discriminate Hval | | discriminate Hval]
  end.
  unfold mbind at 1, io_bind at 1, lift at 1 in Hval.
  match type of Hval with
  | match ?x with Ok _ => _ | Raise _ => _ end = _ =>
      destruct x as [[|] | e1]; [discriminate Hval | | discriminate Hval]
  end.
  unfold mbind at 1, io_bind at 1 in Hval.
  unfold get_daily_operation_count at 1, mbind at 1, io_bind at 1, get_state at 1 in Hval.
  cbn [mret io_ret] in Hval.
  repeat match type of Hval with
         | (if ?c then _ else _) _ = _ => destruct c eqn:?; [discriminate Hval |]
         end.
  unfold mbind at 1, io_bind at 1, lift at 1 in Hval.
  destruct (as_num (get operation_data "estimated_affected_count" (VNum 1)))
    as [affected | e2]; [| discriminate Hval].
  repeat match type of Hval with
         | (if ?c then _ else _) _ = _ => destruct c eqn:?; [discriminate Hval |]
         end.
  unfold mbind at 1, io_bind at 1, lift at 1 in Hval. rewrite Hrisk in Hval.
  rewrite bool_decide_eq_true_2 in Hval by reflexivity.
  destruct (bool_decide (permission_level profile = ADMIN)) eqn:Hadmin;
    [| discriminate Hval].
  apply bool_decide_eq_true_1 in Hadmin. split; [exact Hadmin |].
  intros H2fa. rewrite H2fa in Hval.
  change (bool_decide (CRITICAL = HIGH)) with false in Hval.
  cbn [andb orb negb] in Hval.
  unfold mbind at 1, io_bind at 1 in Hval.
  destruct (verify_2fa_for_operation user session_id s1) as [[[|] | e3] s2].
  - reflexivity.
  - discriminate Hval.
  - discriminate Hval.
Qed.

Lemma critical_operation_needs_admin_and_demanded_2fa_witness :
  permission_level (cached_copy (RT := Fixtures.runtime)
                      (profile_of_row (Fixtures.admin_row true))) = ADMIN
  ∧ (require_2fa (cached_copy (RT := Fixtures.runtime)
                    (profile_of_row (Fixtures.admin_row true))) = true
     → fst (verify_2fa_for_operation "root" (Some "s1")
              (Fixtures.perm_state_cached true {["2fa_verified:s1" := "1"]}))
       = Ok true).
Proof.
  eapply (critical_operation_needs_admin_and_demanded_2fa (RT := Fixtures.runtime)
            Fixtures.t_dec02 "root" "delete" Fixtures.hard_delete_data (Some "s1")
            (Fixtures.perm_state_cached true {["2fa_verified:s1" := "1"]})).
  - vm_compute. reflexivity.
  - vm_compute. reflexivity.
  - vm_compute. reflexivity.
Defined.

(** C3 as stated fails.  The operator ["root"] is an admin whose
    profile does not require 2FA.  The first request of the hour reads
    the profile from the table, stores it in the cache and stops with a
    [TypeError] on the validity check; the next request finds the
    cached profile and is granted a hard delete of critical risk on a
    session without any 2FA verification. *)
Lemma admin_hard_delete_granted_without_2fa :
  (∃ msg, fst (Fixtures.first_hard_delete false ∅ None) = Raise (TypeError msg))
  ∧ (∃ flags s',
       validate_write_permission (RT := Fixtures.runtime) Fixtures.t_dec02 "root"
         "delete" Fixtures.hard_delete_data None (Fixtures.perm_state_cached false ∅)
       = (Ok (true, "Permission granted", flags), s'))
  ∧ truthy (get Fixtures.hard_delete_data "soft_delete" (VBool true)) = false
  ∧ (∃ profile s1 score flags,
       get_user_permission_profile (RT := Fixtures.runtime) Fixtures.t_dec02 "root"
         (Fixtures.perm_state_cached false ∅) = (Ok (Some profile), s1)
       ∧ permission_level profile = ADMIN
       ∧ assess_operation_risk ((Fixtures.t_dec02 `mod` 86400) / 3600) "delete"
           Fixtures.hard_delete_data profile
         = Ok (CRITICAL, score, flags))
  ∧ fst (verify_2fa_for_operation "root" None (Fixtures.perm_state_cached false ∅))
    = Ok false.
Proof.
  split; [| split; [| split; [| split]]].
  - eexists. vm_compute. reflexivity.
  - eexists _, _. vm_compute. reflexivity.
  - reflexivity.
  - eexists _, _, _, _. split; [vm_compute; reflexivity |].
    split; [reflexivity |]. vm_compute. reflexivity.
  - reflexivity.
Qed.

End AuthProps.

(** ** Profile synthesis: matching intents to components *)

Module MatchProps.
Import PSPEngine.

(** A component returned by the search loop is more similar than the
    threshold, whatever was the best match before. *)
Lemma best_match_loop_above_threshold {SIM : Similarity} (self : PSPMatcher)
    (intent_emb : list Q) (layer : list (string * PSPComponent))
    (best : option BestMatch) (best_similarity : Q) (found : BestMatch) :
  (∀ b, best = Some b → (similarity_threshold self < bm_similarity b)%Q) →
  best_match_loop self intent_emb layer best best_similarity = Some found →
  (similarity_threshold self < bm_similarity found)%Q.
Proof.
  revert best best_similarity.
  induction layer as [| [cid c] rest IH]; intros best bs Hbest Hloop; cbn in Hloop.
  - apply Hbest. exact Hloop.
  - destruct (embedding c) as [| x emb] eqn:Hemb.
    + eapply IH; eassumption.
    + destruct (Qgtb (_calculate_similarity intent_emb (x :: emb)) bs
                && Qgtb (_calculate_similarity intent_emb (x :: emb))
                     (similarity_threshold self)) eqn:Hc.
      * eapply IH; [| exact Hloop].
        intros b Hb. injection Hb as <-. cbn.
        apply andb_true_iff in Hc as [_ Hc]. apply Qgtb_true in Hc. exact Hc.
      * eapply IH; eassumption.
Qed.

(** With the default matcher a match is only reported above 0.7, and
    the action follows the similarity bands. *)
Lemma match_above_default_threshold {SIM : Similarity} (intent : UserIntent)
    (psp : PSPContext) (found : BestMatch) :
  _find_best_component_match default_matcher intent psp = Some found →
  (0.7 < bm_similarity found)%Q.
Proof.
  unfold _find_best_component_match. destruct (intent_embedding intent); [discriminate |].
  intros Hloop.
  eapply (best_match_loop_above_threshold default_matcher); [| exact Hloop].
  discriminate.
Qed.

Lemma update_action_bands (m : BestMatch) :
  ((0.9 < bm_similarity m)%Q → _determine_update_action m = STRENGTHEN)
  ∧ ((0.8 < bm_similarity m <= 0.9)%Q → _determine_update_action m = UPDATE)
  ∧ ((0.7 < bm_similarity m <= 0.8)%Q → _determine_update_action m = MERGE)
  ∧ ((bm_similarity m <= 0.7)%Q → _determine_update_action m = CREATE).
Proof.
  unfold _determine_update_action.
  destruct (Qgtb (bm_similarity m) 0.9) eqn:E9;
  destruct (Qgtb (bm_similarity m) 0.8) eqn:E8;
  destruct (Qgtb (bm_similarity m) 0.7) eqn:E7;
  repeat match goal with
         | H : Qgtb _ _ = true |- _ => apply Qgtb_true in H
         | H : Qgtb _ _ = false |- _ => apply Qgtb_false in H
         end;
  repeat split; intros; try reflexivity; lra.
Qed.

(** C6 (failing input). The user's working memory holds one component
    of kind [current_goal]; an intent of kind [work_context] with the
    same embedding is matched against it (similarity 1), and the chosen
    action strengthens that component of a different kind.  The search
    runs over the memory layer of the intent's kind, and the working
    layer holds two kinds. *)
Theorem intent_matches_component_of_another_kind :
  intent_type Fixtures.work_intent = WORK_CONTEXT
  ∧ component_type Fixtures.goal_component = CURRENT_GOAL
  ∧ _find_best_component_match (SIM := Fixtures.unit_cosine) default_matcher
      Fixtures.work_intent Fixtures.psp_with_goal
    = Some {| component := Fixtures.goal_component; bm_similarity := 1 * 1 + (0 * 0 + 0) |}
  ∧ (action <$> match_intents_with_psp (SIM := Fixtures.unit_cosine) default_matcher
                  [Fixtures.work_intent] Fixtures.psp_with_goal) = [STRENGTHEN]
  ∧ (psp_component <$> match_intents_with_psp (SIM := Fixtures.unit_cosine)
                         default_matcher [Fixtures.work_intent] Fixtures.psp_with_goal)
    = [Some Fixtures.goal_component].
Proof. repeat split; reflexivity. Qed.

End MatchProps.
